(** * The honeypot triage middleware of [client/middleware/express-honeypot.js]

    A shallow embedding of the Express middleware and of the fragment of
    JavaScript it relies on (truthiness, [||], property reads, [toString],
    [parseInt], [JSON.stringify], substring and case-insensitive tests),
    followed by the properties of the request pipeline.

    Modelling conventions.
    - A JavaScript value is a [JS.value]; its numbers are the integers of
      magnitude up to 2^53, which a JavaScript number holds exactly and
      prints in plain decimal notation (the type admits no other number);
      objects are association lists in property enumeration order and a
      property read returns the first binding.
    - A string is a Rocq [string] holding the UTF-8 encoding of the text;
      [toLowerCase] and the [/i] flag fold the ASCII letters, which is all
      the ASCII token tests can observe.
    - A thrown exception is the [Throw] result of the [M] monad. The
      calls on the collaborators are recorded as events, with their
      arguments: [next], [axios.post] and [setTimeout] return normally
      (the failures of the oracle call are its outcomes); a response
      call ([res.redirect], [res.status(..).json], [res.status(..).send])
      either returns, and is recorded, or throws inside the [try] block
      having sent nothing, as the response object decides;
      [console.log] is not recorded. *)

From Stdlib Require Import String Ascii List ZArith Bool Lia.
From Stdlib Require Import DecimalString DecimalZ.
Import ListNotations.
Open Scope string_scope.
Open Scope bool_scope.

(** ** JavaScript values and the operations the middleware uses *)

Module JS.

(** The integers that a JavaScript number holds exactly and prints digit
    by digit: those of magnitude up to 2^53. *)
Definition max_exact : Z := 9007199254740992.

Definition is_exact (n : Z) : bool := (Z.abs n <=? max_exact)%Z.

Record safe_int : Type := {
  int_value :> Z;
  int_exact : is_exact int_value = true
}.

Set Warnings "-register-all".
Inductive value : Type :=
| Undefined
| Null
| Bool (b : bool)
| Number (n : safe_int)
| Str (s : string)
| Arr (elts : list value)
| Obj (props : list (string * value)).

(** Exceptions and results of operations that may throw: the TypeError
    of the language, and whatever a call on the response object throws. *)
Inductive exn : Type := TypeError | ResponseError.

Inductive result (A : Type) : Type :=
| Ok (a : A)
| Throw (e : exn).
Arguments Ok {A} a.
Arguments Throw {A} e.

(** The number of an integer literal. *)
Abbreviation Num k := (Number {| int_value := k%Z; int_exact := eq_refl |}).

(** The result of [parseInt]: no number, an integer held exactly, or a
    number beyond 2^53 in magnitude, whose value is not followed. *)
Inductive number : Type :=
| NaN
| Int (n : Z)
| Huge.

(** ToBoolean. *)
Definition truthy (v : value) : bool :=
  match v with
  | Undefined | Null => false
  | Bool b => b
  | Number n => negb (n =? 0)%Z
  | Str s => negb (s =? EmptyString)
  | Arr _ | Obj _ => true
  end.

(** [a || b]. *)
Definition or_else (a b : value) : value := if truthy a then a else b.

(** [typeof v === 'string'] and [typeof v === 'object']. *)
Definition typeof_string (v : value) : bool :=
  match v with Str _ => true | _ => false end.

Definition typeof_object (v : value) : bool :=
  match v with Null | Arr _ | Obj _ => true | _ => false end.

Fixpoint lookup (k : string) (props : list (string * value)) : option value :=
  match props with
  | [] => None
  | (k', v) :: rest => if k' =? k then Some v else lookup k rest
  end.

(** [v.k] for a data property [k] that no prototype defines: only an
    object's own binding can answer. *)
Definition get (v : value) (k : string) : value :=
  match v with
  | Obj props => match lookup k props with Some x => x | None => Undefined end
  | _ => Undefined
  end.

Definition has_own (k : string) (props : list (string * value)) : bool :=
  match lookup k props with Some _ => true | None => false end.

(** [Object.values(v)] of an object or an array. *)
Definition values (v : value) : list value :=
  match v with
  | Obj props => map snd props
  | Arr elts => elts
  | _ => []
  end.

(** The decimal notation of an integer. *)
Definition decimal (n : Z) : string :=
  NilEmpty.string_of_int (Z.to_int n).

(** Number to string: a number of the model prints in plain decimal
    notation. *)
Definition Number_toString (n : safe_int) : string := decimal n.

Definition bool_to_string (b : bool) : string :=
  if b then "true" else "false".

(** ToString of a non-nullish value. An object whose own [toString] is a
    data value (never callable) has no primitive conversion: TypeError.
    An array is joined with commas, nullish elements printing as empty. *)
Fixpoint to_string_obj (v : value) : result string :=
  match v with
  | Undefined => Ok "undefined"
  | Null => Ok "null"
  | Bool b => Ok (bool_to_string b)
  | Number n => Ok (Number_toString n)
  | Str s => Ok s
  | Obj props =>
      if has_own "toString" props then Throw TypeError
      else Ok "[object Object]"
  | Arr elts =>
      (fix join (l : list value) : result string :=
         match l with
         | [] => Ok EmptyString
         | x :: rest =>
             let sx := match x with
                       | Undefined | Null => Ok EmptyString
                       | _ => to_string_obj x
                       end in
             match sx with
             | Throw e => Throw e
             | Ok s =>
                 match rest with
                 | [] => Ok s
                 | _ :: _ =>
                     match join rest with
                     | Throw e => Throw e
                     | Ok t => Ok (s ++ "," ++ t)
                     end
                 end
             end
         end) elts
  end.

(** The abstract operation ToString, as [String(v)] and [parseInt] apply. *)
Definition ToString (v : value) : result string := to_string_obj v.

(** The method call [v.toString()]. *)
Definition toString (v : value) : result string :=
  match v with
  | Undefined | Null => Throw TypeError
  | _ => to_string_obj v
  end.

(** *** Strings *)

Definition lower_ascii (c : ascii) : ascii :=
  let n := nat_of_ascii c in
  if (65 <=? n)%nat && (n <=? 90)%nat then ascii_of_nat (n + 32) else c.

Fixpoint toLowerCase (s : string) : string :=
  match s with
  | EmptyString => EmptyString
  | String c t => String (lower_ascii c) (toLowerCase t)
  end.

(** [s.startsWith(p)]. *)
Definition startsWith (s p : string) : bool := prefix p s.

(** [s.includes(sub)]. *)
Fixpoint includes (s sub : string) : bool :=
  prefix sub s ||
  match s with
  | EmptyString => false
  | String _ t => includes t sub
  end.

(** [/a1|a2|.../i.test(s)] for lower-case literal alternatives. *)
Definition test_i (alts : list string) (s : string) : bool :=
  existsb (includes (toLowerCase s)) alts.

(** [s.replace(/\/$/, empty)]: drop one slash at the very end. *)
Fixpoint strip_trailing_slash (s : string) : string :=
  match s with
  | EmptyString => EmptyString
  | String c EmptyString => if (c =? "/")%char then EmptyString else s
  | String c t => String c (strip_trailing_slash t)
  end.

(** *** parseInt(v, 10) *)

(** The white space and line terminators that [parseInt] skips: the
    ASCII ones ([is_ascii_space]), and the others in their UTF-8
    encoding, of two bytes (U+00A0) or three (U+1680, U+2000 to U+200A,
    U+2028, U+2029, U+202F, U+205F, U+3000, U+FEFF). *)
Definition is_ascii_space (c : ascii) : bool :=
  let n := nat_of_ascii c in
  (n =? 32)%nat || ((9 <=? n)%nat && (n <=? 13)%nat).

Definition is_space_lead (a : ascii) : bool :=
  let x := nat_of_ascii a in
  (x =? 194)%nat || (x =? 225)%nat || (x =? 226)%nat || (x =? 227)%nat ||
  (x =? 239)%nat.

Definition is_space2 (a b : ascii) : bool :=
  (nat_of_ascii a =? 194)%nat && (nat_of_ascii b =? 160)%nat.

Definition is_space3 (a b c : ascii) : bool :=
  let x := nat_of_ascii a in
  let y := nat_of_ascii b in
  let z := nat_of_ascii c in
  ((x =? 225)%nat && (y =? 154)%nat && (z =? 128)%nat) ||
  ((x =? 226)%nat && (y =? 128)%nat &&
   (((128 <=? z)%nat && (z <=? 138)%nat) ||
    (z =? 168)%nat || (z =? 169)%nat || (z =? 175)%nat)) ||
  ((x =? 226)%nat && (y =? 129)%nat && (z =? 159)%nat) ||
  ((x =? 227)%nat && (y =? 128)%nat && (z =? 128)%nat) ||
  ((x =? 239)%nat && (y =? 187)%nat && (z =? 191)%nat).

Definition is_digit (c : ascii) : bool :=
  let n := nat_of_ascii c in (48 <=? n)%nat && (n <=? 57)%nat.

Fixpoint skip_spaces (s : string) : string :=
  match s with
  | EmptyString => s
  | String a t =>
      if is_ascii_space a then skip_spaces t
      else if is_space_lead a then
        match t with
        | EmptyString => s
        | String b t2 =>
            if is_space2 a b then skip_spaces t2
            else
              match t2 with
              | EmptyString => s
              | String c t3 =>
                  if is_space3 a b c then skip_spaces t3 else s
              end
        end
      else s
  end.

Fixpoint digits_prefix (s : string) : string :=
  match s with
  | String c t => if is_digit c then String c (digits_prefix t) else EmptyString
  | EmptyString => EmptyString
  end.

(** The number that a run of digits denotes: exact up to 2^53. *)
Definition digits_value (s : string) : number :=
  match digits_prefix s with
  | EmptyString => NaN
  | ds => match NilEmpty.uint_of_string ds with
          | Some d => if is_exact (Z.of_uint d) then Int (Z.of_uint d) else Huge
          | None => NaN
          end
  end.

Definition negate (x : number) : number :=
  match x with NaN => NaN | Int n => Int (- n) | Huge => Huge end.

Definition parse_decimal (s : string) : number :=
  match skip_spaces s with
  | String "-" t => negate (digits_value t)
  | String "+" t => digits_value t
  | t => digits_value t
  end.

Definition parseInt (v : value) : result number :=
  match ToString v with
  | Ok s => Ok (parse_decimal s)
  | Throw e => Throw e
  end.

(** *** JSON.stringify *)

Definition hex_digit (n : nat) : ascii :=
  if (n <? 10)%nat then ascii_of_nat (48 + n) else ascii_of_nat (87 + n).

Definition quote_char (c : ascii) : string :=
  let n := nat_of_ascii c in
  if (n =? 34)%nat then String "\" (String c EmptyString)
  else if (n =? 92)%nat then "\\"
  else if (n =? 8)%nat then "\b"
  else if (n =? 12)%nat then "\f"
  else if (n =? 10)%nat then "\n"
  else if (n =? 13)%nat then "\r"
  else if (n =? 9)%nat then "\t"
  else if (n <? 32)%nat then
    "\u00" ++ String (hex_digit (n / 16)) (String (hex_digit (n mod 16)) EmptyString)
  else String c EmptyString.

Fixpoint quote_body (s : string) : string :=
  match s with
  | EmptyString => EmptyString
  | String c t => quote_char c ++ quote_body t
  end.

Definition quote (s : string) : string :=
  String (ascii_of_nat 34) (quote_body s ++ String (ascii_of_nat 34) EmptyString).

Fixpoint join_with (sep : string) (l : list string) : string :=
  match l with
  | [] => EmptyString
  | [x] => x
  | x :: rest => x ++ sep ++ join_with sep rest
  end.

(** [None] is the [undefined] that [JSON.stringify(undefined)] returns; a
    property holding it is left out and an array element prints as null. *)
Fixpoint stringify (v : value) : option string :=
  match v with
  | Undefined => None
  | Null => Some "null"
  | Bool b => Some (bool_to_string b)
  | Number n => Some (Number_toString n)
  | Str s => Some (quote s)
  | Arr elts =>
      let items :=
        (fix each (l : list value) : list string :=
           match l with
           | [] => []
           | x :: rest =>
               match stringify x with
               | Some t => t :: each rest
               | None => "null" :: each rest
               end
           end) elts in
      Some ("[" ++ join_with "," items ++ "]")
  | Obj props =>
      let items :=
        (fix each (l : list (string * value)) : list string :=
           match l with
           | [] => []
           | (k, x) :: rest =>
               match stringify x with
               | Some t => (quote k ++ ":" ++ t) :: each rest
               | None => each rest
               end
           end) props in
      Some ("{" ++ join_with "," items ++ "}")
  end.

End JS.

(** ** The middleware *)

Import JS.

(** [process.env], as far as the module reads it. *)
Record process_env : Type := {
  env_HONEYPOT_URL : option string;
  env_HONEYPOT_TIMEOUT_MS : option string;
  env_HONEYPOT_BASE : option string
}.

(** [process.env.X || dflt]: a variable that is unset or empty is falsy. *)
Definition env_or (x : option string) (dflt : string) : string :=
  match x with
  | Some s => if s =? EmptyString then dflt else s
  | None => dflt
  end.

Definition HONEYPOT_URL (env : process_env) : string :=
  env_or (env_HONEYPOT_URL env) "http://127.0.0.1:5000/simulate_traffic".

Definition HONEYPOT_TIMEOUT_MS (env : process_env) : number :=
  parse_decimal (env_or (env_HONEYPOT_TIMEOUT_MS env) "2000").

Definition HONEYPOT_BASE (env : process_env) : string :=
  env_or (env_HONEYPOT_BASE env) "http://127.0.0.1:5000".

(** The fields of the Express request that the middleware reads. Node
    always supplies [method], [originalUrl] and [url] as strings. *)
Record request : Type := {
  method : string;
  originalUrl : string;
  url : string;
  body : value;
  rawBody : value;
  ip : value;
  x_forwarded_for : value     (* req.headers['x-forwarded-for'] *)
}.

(** [req.originalUrl || req.url]. *)
Definition request_url (req : request) : string :=
  if originalUrl req =? EmptyString then url req else originalUrl req.

(** The verdict request posted to the oracle. *)
Record payload : Type := {
  src_ip : value;
  payload_text : string
}.

(** How the single [axios.post] of a request ends. *)
Inductive axios_outcome : Type :=
| AxTimeout                      (* rejected with code ECONNABORTED *)
| AxError                        (* rejected with any other error *)
| AxResponse (data : value).     (* resolved, [resp.data] being [data] *)

(** The calls the middleware makes on its collaborators. *)
Inductive event : Type :=
| Next
| Post (endpoint : string) (p : payload) (timeout : number)
| Redirect (target : value)
| StatusJson (status : value) (body : value)
| SetTimeout (delay : number)
| StatusSend (status : value) (body : value).

(** Computations that record events and may throw. *)
Definition M (A : Type) : Type := list event -> list event * result A.

Definition ret {A : Type} (a : A) : M A := fun tr => (tr, Ok a).

Definition bind {A B : Type} (m : M A) (k : A -> M B) : M B :=
  fun tr =>
    match m tr with
    | (tr', Ok a) => k a tr'
    | (tr', Throw e) => (tr', Throw e)
    end.

(** A call that returns: [next()], [axios.post] (whose failures are its
    outcomes) and [setTimeout]. *)
Definition emit (e : event) : M unit := fun tr => ((tr ++ [e])%list, Ok tt).

(** The response object [res], as far as the middleware depends on it:
    which of its calls throw. A redirect to a string and a 200 JSON
    response of plain data have nothing to throw on; a redirect to any
    other value and a send under a given status and message throw or
    not as Express and Node decide. A call that throws has sent
    nothing. *)
Record response : Type := {
  redirect_throws : value -> bool;
  send_throws : value -> value -> bool
}.

Definition throws (res : response) (e : event) : bool :=
  match e with
  | Redirect (Str _) => false
  | Redirect target => redirect_throws res target
  | StatusSend status body => send_throws res status body
  | _ => false
  end.

(** A call on the response object. *)
Definition respond (res : response) (e : event) : M unit :=
  fun tr =>
    if throws res e then (tr, Throw ResponseError)
    else ((tr ++ [e])%list, Ok tt).

Definition lift {A : Type} (r : result A) : M A := fun tr => (tr, r).

Declare Scope js_scope.
Delimit Scope js_scope with js.
Notation "x <- m ;; k" := (bind m (fun x => k))
  (at level 61, m at next level, right associativity) : js_scope.
Notation "m ;; k" := (bind m (fun _ => k))
  (at level 61, right associativity) : js_scope.
Open Scope js_scope.

(** How control leaves the [try] block when nothing was thrown. *)
Inductive completion : Type :=
| Returned        (* a [return] statement ran *)
| FellThrough.    (* the end of the block was reached *)

(** [guessBodyString(req)]. [JSON.stringify] of an object or array of
    plain data returns a string and throws nothing, so the inner [try]
    has nothing to catch; the read of [rawBody] is outside it. *)
Definition guessBodyString (req : request) : result string :=
  let from_rawBody :=
    if truthy (rawBody req) then toString (rawBody req) else Ok EmptyString in
  match body req with
  | Str s => if truthy (Str s) then Ok s else from_rawBody
  | (Arr _ | Obj _) as b =>
      match stringify b with
      | Some s => Ok s
      | None => from_rawBody
      end
  | _ => from_rawBody
  end.

(** [buildPayload(req)]. *)
Definition buildPayload (req : request) : result payload :=
  match guessBodyString req with
  | Throw e => Throw e
  | Ok bodyStr =>
      Ok {| src_ip := or_else (ip req) (or_else (x_forwarded_for req) (Str "unknown"));
            payload_text := if method req =? "GET" then request_url req
                            else bodyStr |}
  end.

Definition body_tokens : list string :=
  ["insert"; "update"; "delete"; "drop"; "sql"].

Definition value_tokens : list string :=
  ["select"; "union"; "insert"; "update"; "delete"; "drop"; "sql"].

(** The [v => typeof v === 'string' && /.../i.test(v)] callback. *)
Definition value_matches (v : value) : bool :=
  match v with
  | Str s => test_i value_tokens s
  | _ => false
  end.

(** The [suspect] expression, [raw] being [guessBodyString(req)]. *)
Definition suspect (req : request) (raw : string) : bool :=
  let urlLower := toLowerCase (request_url req) in
  let bodyLower := toLowerCase raw in
  includes urlLower "select" ||
  includes urlLower "union" ||
  includes bodyLower "select" ||
  includes bodyLower "union" ||
  test_i body_tokens bodyLower ||
  ((truthy (body req) && typeof_object (body req)) &&
   existsb value_matches (values (body req))).

Definition is_redirect (action : string) : bool :=
  (action =? "redirect_honeypot") || (action =? "redirect").

Definition is_tarpit (action : string) : bool :=
  (action =? "tarpit") || (action =? "tarpit_slowdown") || (action =? "delay").

(** [ar.action || ar.action_type || "normal"]. *)
Definition action_value (ar : value) : value :=
  or_else (get ar "action") (or_else (get ar "action_type") (Str "normal")).

(** The redirect target: [ar.url || "/honeypot/fakedb"], made absolute
    when it is a string that starts with a slash. *)
Definition resolve_redirect (env : process_env) (ar : value) : value :=
  let url := or_else (get ar "url") (Str "/honeypot/fakedb") in
  match url with
  | Str s =>
      if startsWith s "/"
      then Str (strip_trailing_slash (HONEYPOT_BASE env) ++ s)
      else url
  | _ => url
  end.

Definition fake_placeholder : value := Obj [("fake", Str "simulated data")].

(** [js.action_result || {}]. *)
Definition action_result (js : value) : value :=
  or_else (get js "action_result") (Obj []).

(** The branches on the oracle's answer, [js] being a truthy [resp.data]. *)
Definition enforce (env : process_env) (res : response) (js : value)
  : M completion :=
  let ar := action_result js in
  action <- lift (toString (action_value ar)) ;;
  if is_redirect action then
    respond res (Redirect (resolve_redirect env ar)) ;;
    ret Returned
  else if (action =? "fake_data") || truthy (get ar "fake") then
    respond res (StatusJson (Num 200)
                   (or_else (get ar "fake_payload") fake_placeholder)) ;;
    ret Returned
  else if is_tarpit action then
    d <- lift (parseInt (or_else (get ar "delay_ms") (Num 1000))) ;;
    emit (SetTimeout d) ;;
    respond res (StatusSend (or_else (get ar "status") (Num 200))
                            (or_else (get ar "message") (Str "Slow down"))) ;;
    ret Returned
  else
    ret FellThrough.

(** The body of the [try] block, [ax] being how the oracle call ends if
    it is made. *)
Definition try_block (env : process_env) (res : response) (req : request)
    (ax : axios_outcome) : M completion :=
  raw <- lift (guessBodyString req) ;;
  if negb (suspect req raw) then
    emit Next ;; ret Returned
  else
    p <- lift (buildPayload req) ;;
    emit (Post (HONEYPOT_URL env) p (HONEYPOT_TIMEOUT_MS env)) ;;
    match ax with
    | AxTimeout | AxError =>
        emit Next ;; ret Returned                     (* fail-open *)
    | AxResponse data =>
        if negb (truthy data) then
          emit Next ;; ret Returned
        else
          enforce env res data
    end.

(** [honeypotMiddleware(opts)(req, res, next)]: the events of one request.
    The [catch] clause only logs, whatever was thrown, and the final
    [next()] runs unless the [try] block returned. *)
Definition honeypotMiddleware (env : process_env) (res : response)
    (req : request) (ax : axios_outcome) : list event :=
  match try_block env res req ax [] with
  | (tr, Ok Returned) => tr
  | (tr, Ok FellThrough) => (tr ++ [Next])%list
  | (tr, Throw _) => (tr ++ [Next])%list
  end.


(** ** Reading traces *)

(** The oracle call of a suspect request whose body string is [raw]. *)
Definition oracle_call (env : process_env) (req : request) (raw : string)
  : event :=
  Post (HONEYPOT_URL env)
       {| src_ip := or_else (ip req) (or_else (x_forwarded_for req) (Str "unknown"));
          payload_text := if method req =? "GET" then request_url req
                          else raw |}
       (HONEYPOT_TIMEOUT_MS env).

Definition is_next (e : event) : bool :=
  match e with Next => true | _ => false end.

Definition is_response (e : event) : bool :=
  match e with
  | Redirect _ | StatusJson _ _ | StatusSend _ _ => true
  | _ => false
  end.

Definition is_post (e : event) : bool :=
  match e with Post _ _ _ => true | _ => false end.

(** What a response call leaves in the trace: itself when it returns,
    the final [next()] when it throws. *)
Definition outcome_of (res : response) (e : event) : event :=
  if throws res e then Next else e.

(** Calls to [next()], synthesized responses and oracle calls of a trace. *)
Definition passthroughs (tr : list event) : nat := length (filter is_next tr).
Definition responses (tr : list event) : nat := length (filter is_response tr).
Definition oracle_calls (tr : list event) : nat := length (filter is_post tr).

(** The wait that a timer is certain to impose, in ms: its delay when
    that is an integer from 1 to 2^31-1; nothing is counted for any other
    argument of [setTimeout]. *)
Definition timer_wait (d : number) : Z :=
  match d with
  | Int n => if (1 <=? n)%Z && (n <=? 2147483647)%Z then n else 0%Z
  | _ => 0%Z
  end.

(** The time that is certain to pass, from the start of a trace, before
    its first response call: the waits of the timers awaited before it. *)
Fixpoint wait_before_response (tr : list event) : Z :=
  match tr with
  | [] => 0%Z
  | e :: rest =>
      if is_response e then 0%Z
      else match e with
           | SetTimeout d => (timer_wait d + wait_before_response rest)%Z
           | _ => wait_before_response rest
           end
  end.

(** ** The prefilter as the specification words it *)

Definition spec_tokens : list string :=
  ["select"; "union"; "insert"; "update"; "delete"; "drop"; "sql"].

(** [tok] (lower case) occurs in [s] up to the case of ASCII letters. *)
Definition occurs_ci (tok s : string) : Prop :=
  exists pre mid post, s = pre ++ mid ++ post /\ toLowerCase mid = tok.

Definition occurs_cib (tok s : string) : bool := includes (toLowerCase s) tok.

(** Suspect when some token occurs in the URL, in the normalized payload
    or in a string value of a structured body. *)
Definition spec_classify (req : request) (normalized : string) : bool :=
  existsb (fun tok =>
    occurs_cib tok (request_url req) ||
    occurs_cib tok normalized ||
    existsb (fun v => match v with Str s => occurs_cib tok s | _ => false end)
            (values (body req)))
    spec_tokens.

(** ** Answers without a verdict *)

(** An answer of the oracle call that carries no actionable verdict. *)
Definition recognised (action : string) : bool :=
  is_redirect action || (action =? "fake_data") || is_tarpit action.

Inductive no_verdict : axios_outcome -> Prop :=
| nv_timeout : no_verdict AxTimeout
| nv_transport : no_verdict AxError
| nv_empty (data : value) :
    truthy data = false -> no_verdict (AxResponse data)
| nv_missing_action (js : value) :
    truthy js = true ->
    truthy (get (action_result js) "action") = false ->
    truthy (get (action_result js) "action_type") = false ->
    truthy (get (action_result js) "fake") = false ->
    no_verdict (AxResponse js)
| nv_unknown_action (js : value) (a : string) :
    truthy js = true ->
    toString (action_value (action_result js)) = Ok a ->
    recognised a = false ->
    truthy (get (action_result js) "fake") = false ->
    no_verdict (AxResponse js)
| nv_unreadable_action (js : value) (e : exn) :
    truthy js = true ->
    toString (action_value (action_result js)) = Throw e ->
    no_verdict (AxResponse js).

(** What the middleware has done before the oracle answers: nothing for
    a benign request, the one call for a suspect one. *)
Definition consultation (env : process_env) (req : request) : list event :=
  match guessBodyString req with
  | Ok raw => if suspect req raw then [oracle_call env req raw] else []
  | Throw _ => []
  end.

(** ** The oracle's answer as the specification words it *)

Definition spec_actions : list string :=
  ["normal"; "allow"; "redirect"; "redirect_honeypot"; "fake_data";
   "tarpit"; "tarpit_slowdown"; "delay"].

(** The action of an action descriptor, when it is one of the listed. *)
Definition spec_descriptor_action (d : value) : option string :=
  match get d "action" with
  | Str a => if existsb (String.eqb a) spec_actions then Some a else None
  | _ => None
  end.

(** The verdict of an answer: its top-level action descriptor, or else
    its nested [action_result]; [None] is NoVerdict. *)
Definition spec_verdict_action (js : value) : option string :=
  match spec_descriptor_action js with
  | Some a => Some a
  | None => spec_descriptor_action (get js "action_result")
  end.

(** ** Sample requests and answers *)

Module Samples.

Definition env_h5000 : process_env :=
  {| env_HONEYPOT_URL := None;
     env_HONEYPOT_TIMEOUT_MS := None;
     env_HONEYPOT_BASE := Some "http://h:5000/" |}.

Definition env_default : process_env :=
  {| env_HONEYPOT_URL := None;
     env_HONEYPOT_TIMEOUT_MS := None;
     env_HONEYPOT_BASE := None |}.

(** [GET /drop] with the empty object [express.json()] leaves as body. *)
Definition drop_probe : request :=
  {| method := "GET"; originalUrl := "/drop"; url := "/drop";
     body := Obj []; rawBody := Undefined;
     ip := Str "10.0.0.10"; x_forwarded_for := Undefined |}.

(** [POST /login] with an injection in the user name. *)
Definition login_attack : request :=
  {| method := "POST"; originalUrl := "/login"; url := "/login";
     body := Obj [("user", Str "admin' UNION SELECT 1 --")];
     rawBody := Undefined;
     ip := Str "10.0.0.11"; x_forwarded_for := Undefined |}.

Definition login_attack_raw : string :=
  Eval vm_compute in
    match guessBodyString login_attack with Ok s => s | Throw _ => EmptyString end.

Definition answer (ar : list (string * value)) : value :=
  Obj [("action_result", Obj ar)].

(** A response object none of whose calls throws. *)
Definition res_lenient : response :=
  {| redirect_throws := fun _ => false;
     send_throws := fun _ _ => false |}.

(** A response object that refuses to send under a numeric status
    outside 100..999, as Node does, and throws on nothing else. *)
Definition res_strict : response :=
  {| redirect_throws := fun _ => false;
     send_throws := fun status _ =>
       match status with
       | Number n => negb ((100 <=? n)%Z && (n <=? 999)%Z)
       | _ => false
       end |}.

End Samples.

Import Samples.

(** Counting the events of a trace that is known event by event. *)
Ltac count_events :=
  unfold passthroughs, responses, oracle_calls, oracle_call; cbn;
  auto.

(** ** Further vocabulary for traces and bodies *)

(** What follows the oracle call of a suspect request. *)
Definition enforcement_events (env : process_env) (res : response)
    (ax : axios_outcome) : list event :=
  match ax with
  | AxTimeout | AxError => [Next]
  | AxResponse data =>
      if truthy data then
        match enforce env res data [] with
        | (tr, Ok Returned) => tr
        | (tr, _) => (tr ++ [Next])%list
        end
      else [Next]
  end.

(** The trace that the middleware makes of the end of the [try] block. *)
Definition closed (r : list event * result completion) : list event :=
  match r with
  | (tr, Ok Returned) => tr
  | (tr, _) => (tr ++ [Next])%list
  end.

(** [s] is a string value or a serialized property name somewhere inside
    a value. A property holding [undefined] is not serialized, neither is
    its name. *)
Inductive mentions (s : string) : value -> Prop :=
| mentions_here : mentions s (Str s)
| mentions_element (v : value) (elts : list value) :
    In v elts -> mentions s v -> mentions s (Arr elts)
| mentions_key (v : value) (props : list (string * value)) :
    In (s, v) props -> v <> Undefined -> mentions s (Obj props)
| mentions_property (k : string) (v : value) (props : list (string * value)) :
    In (k, v) props -> mentions s v -> mentions s (Obj props).

(** [a] occurs in [b]. *)
Definition substring_of (a b : string) : Prop :=
  exists pre post, b = pre ++ a ++ post.

(** Words of lower-case ASCII letters, which JSON quoting leaves alone. *)
Definition lower_letter (c : ascii) : bool :=
  let n := nat_of_ascii c in (97 <=? n)%nat && (n <=? 122)%nat.

Fixpoint lower_word (s : string) : bool :=
  match s with
  | EmptyString => true
  | String c t => lower_letter c && lower_word t
  end.

Module MoreSamples.

(** A JSON body with the injection two levels down. *)
Definition nested_attack : request :=
  {| method := "POST"; originalUrl := "/api/items"; url := "/api/items";
     body := Obj [("filter", Obj [("names", Arr [Str "a"; Str "x; DROP TABLE t"])])];
     rawBody := Undefined;
     ip := Undefined; x_forwarded_for := Str "203.0.113.7" |}.

(** A request without parsed body whose [rawBody] cannot be printed. *)
Definition unreadable_probe : request :=
  {| method := "GET"; originalUrl := "/q?s=select"; url := "/q?s=select";
     body := Undefined;
     rawBody := Obj [("toString", Num 1)];
     ip := Str "10.0.0.12"; x_forwarded_for := Undefined |}.

(** [GET /search?q=union] with a parsed body. *)
Definition search_probe : request :=
  {| method := "GET"; originalUrl := "/search?q=union"; url := "/search?q=union";
     body := Obj [("note", Str "hello")]; rawBody := Undefined;
     ip := Str "10.0.0.13"; x_forwarded_for := Undefined |}.

Definition search_probe_raw : string :=
  Eval vm_compute in
    match guessBodyString search_probe with Ok s => s | Throw _ => EmptyString end.

End MoreSamples.

Import MoreSamples.

(** ** Auxiliary facts *)

(** Sanity checks of the JavaScript fragment. *)
Example parseInt_skips_and_stops :
  parseInt (Str "  -42px") = Ok (Int (-42)).
Proof. reflexivity. Qed.

Example parseInt_of_letters : parseInt (Str "abc") = Ok NaN.
Proof. reflexivity. Qed.

Example parseInt_of_bad_object :
  parseInt (Obj [("toString", Num 1)]) = Throw TypeError.
Proof. reflexivity. Qed.

Example parseInt_of_array : parseInt (Arr [Num 7; Num 8]) = Ok (Int 7).
Proof. reflexivity. Qed.

Example strip_one_slash :
  strip_trailing_slash "http://h:5000//" = "http://h:5000/".
Proof. reflexivity. Qed.

Example includes_after_lowering :
  includes (toLowerCase "/a?q=SeLeCt") "select" = true.
Proof. reflexivity. Qed.

Example stringify_body :
  stringify (Obj [("n", Num (-3)); ("l", Arr [Null; Bool true; Undefined]);
                  ("u", Undefined)])
  = Some (String "{" (quote "n" ++ ":-3," ++ quote "l" ++ ":[null,true,null]}")).
Proof. reflexivity. Qed.

Section StringFacts.

Lemma prefix_app (p s : string) :
  prefix p s = true <-> exists r, s = p ++ r.
Proof.
  revert s. induction p as [| c p IH]; intros s.
  - split; [intros _; exists s; reflexivity | intros _; destruct s; reflexivity].
  - destruct s as [| d s]; simpl.
    + split; [discriminate | intros [r Hr]; discriminate].
    + destruct (ascii_dec c d) as [-> | Hne].
      * rewrite IH. split; intros [r Hr]; exists r.
        -- now subst.
        -- now injection Hr.
      * split; [discriminate |].
        intros [r Hr]. injection Hr as Hcd _. congruence.
Qed.

Lemma includes_app (s sub : string) :
  includes s sub = true <-> exists pre post, s = pre ++ sub ++ post.
Proof.
  induction s as [| c s IH]; cbn [includes].
  - rewrite orb_false_r, prefix_app. split.
    + intros [r Hr]. exists EmptyString, r. exact Hr.
    + intros [pre [post H]]. destruct pre; simpl in H.
      * now exists post.
      * discriminate.
  - rewrite orb_true_iff, prefix_app, IH. split.
    + intros [[r Hr] | [pre [post H]]].
      * exists EmptyString, r. exact Hr.
      * exists (String c pre), post. simpl. now rewrite H.
    + intros [pre [post H]]. destruct pre as [| d pre]; simpl in H.
      * left. now exists post.
      * right. injection H as _ H. now exists pre, post.
Qed.

Lemma lower_ascii_idem (c : ascii) : lower_ascii (lower_ascii c) = lower_ascii c.
Proof.
  destruct c as [[] [] [] [] [] [] [] []]; reflexivity.
Qed.

Lemma toLowerCase_idem (s : string) : toLowerCase (toLowerCase s) = toLowerCase s.
Proof.
  induction s as [| c s IH]; simpl; [reflexivity |].
  now rewrite lower_ascii_idem, IH.
Qed.

Lemma toLowerCase_app (a b : string) :
  toLowerCase (a ++ b) = toLowerCase a ++ toLowerCase b.
Proof.
  induction a as [| c a IH]; simpl; [reflexivity | now rewrite IH].
Qed.

Lemma toLowerCase_split (s x y : string) :
  toLowerCase s = x ++ y ->
  exists a b, s = a ++ b /\ toLowerCase a = x /\ toLowerCase b = y.
Proof.
  revert s. induction x as [| c x IH]; intros s H; simpl in H.
  - exists EmptyString, s. auto.
  - destruct s as [| d s]; simpl in H; [discriminate |].
    injection H as Hc Hs. destruct (IH s Hs) as [a [b [-> [Ha Hb]]]].
    exists (String d a), b. simpl. now rewrite Ha, Hc.
Qed.

(** The boolean test decides the case-insensitive occurrence. *)
Lemma occurs_cib_spec (tok s : string) :
  occurs_cib tok s = true <-> occurs_ci tok s.
Proof.
  unfold occurs_cib, occurs_ci. rewrite includes_app. split.
  - intros [pre [post H]].
    destruct (toLowerCase_split _ _ _ H) as [a [r [-> [Ha Hr]]]].
    destruct (toLowerCase_split _ _ _ Hr) as [m [b [-> [Hm Hb]]]].
    now exists a, m, b.
  - intros [pre [mid [post [-> Hm]]]].
    exists (toLowerCase pre), (toLowerCase post).
    now rewrite !toLowerCase_app, Hm.
Qed.

Lemma strip_trailing_slash_app (b : string) :
  strip_trailing_slash (b ++ "/") = b.
Proof.
  induction b as [| c b IH]; simpl; [reflexivity |].
  rewrite IH. destruct b; reflexivity.
Qed.

End StringFacts.

Section ParseIntFacts.

Example parseInt_skips_wide_space :
  parseInt (Str (String (ascii_of_nat 194) (String (ascii_of_nat 160) "5")))
  = Ok (Int 5).
Proof. reflexivity. Qed.

Example parseInt_beyond_exact :
  parseInt (Str "9007199254740993") = Ok Huge.
Proof. reflexivity. Qed.

Lemma digits_prefix_uint (d : Decimal.uint) :
  digits_prefix (NilEmpty.string_of_uint d) = NilEmpty.string_of_uint d.
Proof.
  induction d; simpl; unfold is_digit; simpl; congruence.
Qed.

Lemma to_uint_not_Nil (p : positive) : Pos.to_uint p <> Decimal.Nil.
Proof.
  intros H. pose proof (DecimalPos.Unsigned.of_to p) as E.
  rewrite H in E. discriminate.
Qed.

Lemma of_uint_to_uint (p : positive) : Z.of_uint (Pos.to_uint p) = Z.pos p.
Proof.
  unfold Z.of_uint. now rewrite DecimalPos.Unsigned.of_to.
Qed.

Lemma digits_prefix_uint_app (d : Decimal.uint) (rest : string) :
  digits_prefix rest = EmptyString ->
  digits_prefix (NilEmpty.string_of_uint d ++ rest) = NilEmpty.string_of_uint d.
Proof.
  intros Hr. induction d; cbn [NilEmpty.string_of_uint append digits_prefix];
    [exact Hr | ..]; unfold is_digit; cbn; now rewrite IHd.
Qed.

Lemma digits_value_uint_app (d : Decimal.uint) (rest : string) :
  d <> Decimal.Nil ->
  is_exact (Z.of_uint d) = true ->
  digits_prefix rest = EmptyString ->
  digits_value (NilEmpty.string_of_uint d ++ rest) = Int (Z.of_uint d).
Proof.
  intros Hd Hx Hr. unfold digits_value.
  rewrite (digits_prefix_uint_app d rest Hr).
  pose proof (NilEmpty.usu d) as U.
  destruct (NilEmpty.string_of_uint d) eqn:E.
  - destruct d; cbn in E; congruence.
  - now rewrite U, Hx.
Qed.

Lemma parse_decimal_digit (c : ascii) (t : string) :
  is_digit c = true ->
  parse_decimal (String c t) = digits_value (String c t).
Proof.
  destruct c as [[] [] [] [] [] [] [] []]; intros H;
    try discriminate H; reflexivity.
Qed.

Lemma parse_decimal_uint_app (d : Decimal.uint) (rest : string) :
  d <> Decimal.Nil ->
  is_exact (Z.of_uint d) = true ->
  digits_prefix rest = EmptyString ->
  parse_decimal (NilEmpty.string_of_uint d ++ rest) = Int (Z.of_uint d).
Proof.
  intros Hd Hx Hr. rewrite <- (digits_value_uint_app d rest Hd Hx Hr).
  destruct d; [congruence | ..];
    cbn [NilEmpty.string_of_uint append]; apply parse_decimal_digit; reflexivity.
Qed.

Lemma is_exact_neg (p : positive) :
  is_exact (Z.neg p) = true -> is_exact (Z.pos p) = true.
Proof. unfold is_exact. cbn [Z.abs]. intros H. exact H. Qed.

(** [parseInt] reads the decimal notation of an exact integer and stops
    at the first character that is no digit. *)
Lemma parse_decimal_Z_app (n : Z) (rest : string) :
  is_exact n = true ->
  digits_prefix rest = EmptyString ->
  parse_decimal (decimal n ++ rest) = Int n.
Proof.
  intros Hx Hr. unfold decimal.
  destruct n as [| p | p]; cbn [Z.to_int NilEmpty.string_of_int].
  - apply (parse_decimal_uint_app (Decimal.D0 Decimal.Nil) rest);
      [discriminate | reflexivity | exact Hr].
  - transitivity (Int (Z.of_uint (Pos.to_uint p)));
      [| f_equal; apply of_uint_to_uint].
    apply parse_decimal_uint_app; [apply to_uint_not_Nil | | exact Hr].
    rewrite of_uint_to_uint. exact Hx.
  - change (parse_decimal (String "-" (NilEmpty.string_of_uint (Pos.to_uint p)) ++ rest))
      with (negate (digits_value (NilEmpty.string_of_uint (Pos.to_uint p) ++ rest))).
    rewrite digits_value_uint_app; [| apply to_uint_not_Nil | | exact Hr].
    + rewrite of_uint_to_uint. reflexivity.
    + rewrite of_uint_to_uint. exact (is_exact_neg p Hx).
Qed.

Lemma append_empty_r (a : string) : a ++ EmptyString = a.
Proof. induction a as [| x a IH]; cbn; [reflexivity | now rewrite IH]. Qed.

(** [parseInt] of a number gives the number back. *)
Lemma parseInt_Number (n : safe_int) : parseInt (Number n) = Ok (Int n).
Proof.
  unfold parseInt, ToString, to_string_obj. f_equal.
  unfold Number_toString. rewrite <- (append_empty_r (decimal n)).
  apply parse_decimal_Z_app; [apply int_exact | reflexivity].
Qed.

Lemma decimal_truthy (n : Z) (rest : string) :
  truthy (Str (decimal n ++ rest)) = true.
Proof.
  unfold decimal.
  destruct n as [| p | p]; cbn [Z.to_int NilEmpty.string_of_int];
    try reflexivity.
  pose proof (to_uint_not_Nil p) as H.
  destruct (Pos.to_uint p); try reflexivity. congruence.
Qed.

End ParseIntFacts.

(** ** How a request runs *)

Section Runs.

Variable env : process_env.
Variable res : response.

Lemma buildPayload_ok (req : request) (raw : string) :
  guessBodyString req = Ok raw ->
  buildPayload req =
    Ok {| src_ip := or_else (ip req) (or_else (x_forwarded_for req) (Str "unknown"));
          payload_text := if method req =? "GET" then request_url req
                          else raw |}.
Proof. intros H. unfold buildPayload. now rewrite H. Qed.

(** A response call that ends the [try] block. *)
Lemma respond_run (e : event) (tr : list event) :
  (respond res e ;; ret Returned) tr =
  if throws res e then (tr, Throw ResponseError)
  else ((tr ++ [e])%list, Ok Returned).
Proof.
  unfold bind, respond, ret. now destruct (throws res e).
Qed.

(** The ways the enforcement of an answer ends. *)
Lemma enforce_run (js : value) (tr : list event) :
  enforce env res js tr =
  let ar := action_result js in
  match toString (action_value ar) with
  | Throw e => (tr, Throw e)
  | Ok a =>
      if is_redirect a then
        (respond res (Redirect (resolve_redirect env ar)) ;; ret Returned) tr
      else if (a =? "fake_data") || truthy (get ar "fake") then
        ((tr ++ [StatusJson (Num 200)
                   (or_else (get ar "fake_payload") fake_placeholder)])%list,
         Ok Returned)
      else if is_tarpit a then
        match parseInt (or_else (get ar "delay_ms") (Num 1000)) with
        | Throw e => (tr, Throw e)
        | Ok d =>
            (respond res
               (StatusSend (or_else (get ar "status") (Num 200))
                           (or_else (get ar "message") (Str "Slow down"))) ;;
             ret Returned) (tr ++ [SetTimeout d])%list
        end
      else (tr, Ok FellThrough)
  end.
Proof.
  unfold enforce. cbv zeta. unfold bind at 1, lift at 1.
  destruct (toString (action_value (action_result js))) as [a | e];
    [| reflexivity].
  destruct (is_redirect a); [reflexivity |].
  destruct ((a =? "fake_data") || truthy (get (action_result js) "fake"));
    [reflexivity |].
  destruct (is_tarpit a); [| reflexivity].
  unfold bind at 1, lift at 1.
  destruct (parseInt _) as [d | e]; reflexivity.
Qed.

Lemma closed_respond (e : event) (tr : list event) :
  closed ((respond res e ;; ret Returned) tr) = (tr ++ [outcome_of res e])%list.
Proof.
  rewrite respond_run. unfold outcome_of. now destruct (throws res e).
Qed.

Lemma middleware_closed (req : request) (ax : axios_outcome) :
  honeypotMiddleware env res req ax = closed (try_block env res req ax []).
Proof.
  unfold honeypotMiddleware, closed.
  destruct (try_block env res req ax []) as [tr [[|] | e]]; reflexivity.
Qed.

Lemma middleware_unreadable (req : request) (ax : axios_outcome) (e : exn) :
  guessBodyString req = Throw e ->
  honeypotMiddleware env res req ax = [Next].
Proof.
  intros H. unfold honeypotMiddleware, try_block, bind, lift.
  now rewrite H.
Qed.

Lemma middleware_benign (req : request) (ax : axios_outcome) (raw : string) :
  guessBodyString req = Ok raw ->
  suspect req raw = false ->
  honeypotMiddleware env res req ax = [Next].
Proof.
  intros H Hs. unfold honeypotMiddleware, try_block, bind, lift.
  now rewrite H, Hs.
Qed.

Lemma try_block_suspect (req : request) (ax : axios_outcome) (raw : string) :
  guessBodyString req = Ok raw ->
  suspect req raw = true ->
  try_block env res req ax [] =
  match ax with
  | AxTimeout | AxError => ([oracle_call env req raw; Next], Ok Returned)
  | AxResponse data =>
      if truthy data then enforce env res data [oracle_call env req raw]
      else ([oracle_call env req raw; Next], Ok Returned)
  end.
Proof.
  intros H Hs. unfold try_block, bind, lift.
  rewrite H, Hs, (buildPayload_ok _ _ H). cbn [negb].
  unfold emit, ret. cbn [app]. fold (oracle_call env req raw).
  destruct ax as [| | data]; try reflexivity.
  destruct (truthy data); reflexivity.
Qed.

Lemma middleware_suspect (req : request) (ax : axios_outcome) (raw : string) :
  guessBodyString req = Ok raw ->
  suspect req raw = true ->
  honeypotMiddleware env res req ax =
  match ax with
  | AxTimeout | AxError => [oracle_call env req raw; Next]
  | AxResponse data =>
      if truthy data then closed (enforce env res data [oracle_call env req raw])
      else [oracle_call env req raw; Next]
  end.
Proof.
  intros H Hs. rewrite middleware_closed, (try_block_suspect req ax raw H Hs).
  destruct ax as [| | data]; try reflexivity.
  now destruct (truthy data).
Qed.

(** The suspect request with an answer [js] that the middleware reads. *)
Lemma middleware_answer (req : request) (raw : string) (js : value) :
  guessBodyString req = Ok raw ->
  suspect req raw = true ->
  truthy js = true ->
  honeypotMiddleware env res req (AxResponse js) =
  closed (enforce env res js [oracle_call env req raw]).
Proof.
  intros H Hs Hj. rewrite (middleware_suspect _ _ _ H Hs). now rewrite Hj.
Qed.

(** The enforcement of an answer, closed, branch by branch. *)
Lemma closed_enforce (js : value) (tr : list event) :
  closed (enforce env res js tr) =
  let ar := action_result js in
  match toString (action_value ar) with
  | Throw e => (tr ++ [Next])%list
  | Ok a =>
      if is_redirect a then
        (tr ++ [outcome_of res (Redirect (resolve_redirect env ar))])%list
      else if (a =? "fake_data") || truthy (get ar "fake") then
        (tr ++ [StatusJson (Num 200)
                  (or_else (get ar "fake_payload") fake_placeholder)])%list
      else if is_tarpit a then
        match parseInt (or_else (get ar "delay_ms") (Num 1000)) with
        | Throw e => (tr ++ [Next])%list
        | Ok d =>
            (tr ++ [SetTimeout d;
                    outcome_of res
                      (StatusSend (or_else (get ar "status") (Num 200))
                                  (or_else (get ar "message") (Str "Slow down")))])%list
        end
      else (tr ++ [Next])%list
  end.
Proof.
  rewrite enforce_run. cbv zeta.
  destruct (toString _) as [a | e]; [| reflexivity].
  destruct (is_redirect a); [apply closed_respond |].
  destruct ((a =? "fake_data") || _); [reflexivity |].
  destruct (is_tarpit a); [| reflexivity].
  destruct (parseInt _) as [d | e]; [| reflexivity].
  rewrite closed_respond. now rewrite <- app_assoc.
Qed.

End Runs.

(** ** Properties of the pipeline *)

(** C1. Every request ends in exactly one terminal outcome: one call to
    [next()] and no synthesized response, or one synthesized response
    (redirect, fake data or tarpit reply) and no call to [next()]; this
    holds on every path, the oracle failing, the [try] block throwing
    and a response call throwing included. *)
Theorem exactly_one_terminal_outcome
    (env : process_env) (res : response) (req : request)
    (ax : axios_outcome) :
  let tr := honeypotMiddleware env res req ax in
  (passthroughs tr = 1 /\ responses tr = 0) \/
  (passthroughs tr = 0 /\ responses tr = 1).
Proof.
  cbv zeta.
  destruct (guessBodyString req) as [raw | e] eqn:Hraw.
  2:{ rewrite (middleware_unreadable env res req ax e Hraw). count_events. }
  destruct (suspect req raw) eqn:Hs.
  2:{ rewrite (middleware_benign env res req ax raw Hraw Hs). count_events. }
  rewrite (middleware_suspect env res req ax raw Hraw Hs).
  destruct ax as [| | data]; [count_events | count_events |].
  destruct (truthy data); [| count_events].
  rewrite closed_enforce. cbv zeta.
  destruct (toString _) as [a | e]; [| count_events].
  destruct (is_redirect a).
  { unfold outcome_of. destruct (throws res _); [count_events |].
    destruct (resolve_redirect env _); count_events. }
  destruct ((a =? "fake_data") || _); [count_events |].
  destruct (is_tarpit a); [| count_events].
  destruct (parseInt _); [| count_events].
  unfold outcome_of. destruct (throws res _); count_events.
Qed.

(** A request whose oracle call brings no verdict passes through. *)
Lemma no_verdict_run
    (env : process_env) (res : response) (req : request)
    (ax : axios_outcome) :
  no_verdict ax ->
  honeypotMiddleware env res req ax = (consultation env req ++ [Next])%list.
Proof.
  intros Hnv. unfold consultation.
  destruct (guessBodyString req) as [raw | e] eqn:Hraw.
  2:{ now rewrite (middleware_unreadable env res req ax e Hraw). }
  destruct (suspect req raw) eqn:Hs.
  2:{ now rewrite (middleware_benign env res req ax raw Hraw Hs). }
  rewrite (middleware_suspect env res req ax raw Hraw Hs).
  destruct Hnv as [| | data Hd | js Hj Ha Ht Hf | js a Hj Ha Hr Hf | js e Hj Ha];
    try reflexivity.
  - now rewrite Hd.
  - rewrite Hj, closed_enforce. cbv zeta.
    unfold action_value, or_else at 1. rewrite Ha. unfold or_else at 1.
    rewrite Ht. cbn. now rewrite Hf.
  - rewrite Hj, closed_enforce. cbv zeta. rewrite Ha.
    unfold recognised in Hr.
    apply orb_false_iff in Hr as [Hr Htar].
    apply orb_false_iff in Hr as [Hred Hfd].
    now rewrite Hred, Hfd, Hf, Htar.
  - rewrite Hj, closed_enforce. cbv zeta. now rewrite Ha.
Qed.

(** C2. When the oracle call times out, fails in transport, answers with
    nothing, or answers with something that is no actionable verdict (no
    action named, an action outside the enforced ones, or one that cannot
    be read, and no [fake] flag), nothing is raised: the request passes
    through with one call to [next()] after the oracle call, if one was
    made, and no response is synthesized. *)
Theorem no_verdict_passes_through
    (env : process_env) (res : response) (req : request)
    (ax : axios_outcome) :
  no_verdict ax ->
  honeypotMiddleware env res req ax = (consultation env req ++ [Next])%list /\
  passthroughs (honeypotMiddleware env res req ax) = 1 /\
  responses (honeypotMiddleware env res req ax) = 0.
Proof.
  intros Hnv. rewrite (no_verdict_run env res req ax Hnv).
  split; [reflexivity |]. unfold consultation.
  destruct (guessBodyString req) as [raw | e]; [| split; reflexivity].
  destruct (suspect req raw); split; reflexivity.
Qed.

Lemma no_verdict_passes_through_witness :
  honeypotMiddleware env_default res_strict login_attack
    (AxResponse (answer [("action", Str "block")])) =
  [oracle_call env_default login_attack login_attack_raw; Next] /\
  honeypotMiddleware env_default res_strict login_attack AxTimeout =
  [oracle_call env_default login_attack login_attack_raw; Next].
Proof.
  split.
  - apply (proj1 (no_verdict_passes_through env_default res_strict login_attack
                    (AxResponse (answer [("action", Str "block")]))
                    (nv_unknown_action (answer [("action", Str "block")]) "block"
                       eq_refl eq_refl eq_refl eq_refl))).
  - apply (proj1 (no_verdict_passes_through env_default res_strict login_attack
                    AxTimeout nv_timeout)).
Defined.

(** The prefilter, token test by token test. *)
Lemma suspect_tests (req : request) (raw : string) :
  suspect req raw =
    occurs_cib "select" (request_url req) ||
    occurs_cib "union" (request_url req) ||
    existsb (fun tok => occurs_cib tok raw) spec_tokens ||
    (truthy (body req) && typeof_object (body req) &&
     existsb (fun v => match v with
                       | Str s => existsb (fun tok => occurs_cib tok s) spec_tokens
                       | _ => false
                       end) (values (body req))).
Proof.
  unfold suspect, test_i, occurs_cib. cbv zeta.
  rewrite toLowerCase_idem.
  assert (Hv : forall l,
    existsb value_matches l =
    existsb (fun v => match v with
                      | Str s => existsb (fun tok => includes (toLowerCase s) tok)
                                   spec_tokens
                      | _ => false
                      end) l).
  { induction l as [| v l IH]; [reflexivity |].
    cbn [existsb]. rewrite IH. now destruct v. }
  rewrite Hv. cbn [existsb body_tokens spec_tokens].
  destruct (includes (toLowerCase (request_url req)) "select");
    destruct (includes (toLowerCase (request_url req)) "union");
    destruct (includes (toLowerCase raw) "select");
    destruct (includes (toLowerCase raw) "union");
    destruct (includes (toLowerCase raw) "insert");
    destruct (includes (toLowerCase raw) "update");
    destruct (includes (toLowerCase raw) "delete");
    destruct (includes (toLowerCase raw) "drop");
    destruct (includes (toLowerCase raw) "sql"); reflexivity.
Qed.

(** C3, as stated, fails: [drop] occurs in the URL (which is also the
    normalized payload of a GET), so the specification's prefilter says
    suspect, while the middleware's says benign and passes the request
    through without consulting the oracle. *)
Lemma url_token_is_not_escalated :
  guessBodyString drop_probe = Ok "{}" /\
  buildPayload drop_probe =
    Ok {| src_ip := Str "10.0.0.10"; payload_text := "/drop" |} /\
  spec_classify drop_probe "/drop" = true /\
  suspect drop_probe "{}" = false /\
  honeypotMiddleware env_default res_strict drop_probe AxTimeout = [Next].
Proof. repeat split; reflexivity. Qed.

(** C3, amended. The prefilter classifies a request as suspect exactly
    when [select] or [union] occurs (case-insensitively) in the URL, or
    one of the seven tokens occurs in the body string, or the body is an
    object or array one of whose top-level string values contains one of
    the seven tokens; a request classified benign passes through at once
    and the oracle is not called. *)
Theorem prefilter_decides
    (env : process_env) (res : response) (req : request)
    (ax : axios_outcome) (raw : string) :
  guessBodyString req = Ok raw ->
  (suspect req raw = true <->
     occurs_ci "select" (request_url req) \/
     occurs_ci "union" (request_url req) \/
     (exists tok, In tok spec_tokens /\ occurs_ci tok raw) \/
     (truthy (body req) = true /\ typeof_object (body req) = true /\
      exists s tok, In (Str s) (values (body req)) /\
                    In tok spec_tokens /\ occurs_ci tok s)) /\
  (suspect req raw = false -> honeypotMiddleware env res req ax = [Next]).
Proof.
  intros Hraw. split.
  - rewrite suspect_tests, !orb_true_iff, !andb_true_iff, !occurs_cib_spec,
      !existsb_exists.
    split.
    + intros [[[H | H] | [tok [Hin H]]] | [[Ht Ho] [v [Hv H]]]].
      * now left.
      * now right; left.
      * right; right; left. exists tok. now rewrite <- occurs_cib_spec.
      * right; right; right. repeat split; try assumption.
        destruct v as [| | | | s | |]; try discriminate.
        apply existsb_exists in H as [tok [Hin H]].
        exists s, tok. now rewrite <- occurs_cib_spec.
    + intros [H | [H | [[tok [Hin H]] | [Ht [Ho [s [tok [Hv [Hin H]]]]]]]]].
      * now left; left; left.
      * now left; left; right.
      * left; right. exists tok. now rewrite occurs_cib_spec.
      * right. repeat split; try assumption.
        exists (Str s). split; [assumption |].
        apply existsb_exists. exists tok. now rewrite occurs_cib_spec.
  - intros Hs. exact (middleware_benign env res req ax raw Hraw Hs).
Qed.

Lemma prefilter_decides_witness :
  guessBodyString drop_probe = Ok "{}" /\
  suspect drop_probe "{}" = false /\
  honeypotMiddleware env_default res_strict drop_probe AxError = [Next].
Proof.
  split; [reflexivity |]. split; [reflexivity |].
  apply (proj2 (prefilter_decides env_default res_strict drop_probe AxError
                  "{}" eq_refl)).
  reflexivity.
Defined.

Lemma strip_trailing_slash_other (s : string) :
  (forall b, s <> b ++ "/") -> strip_trailing_slash s = s.
Proof.
  induction s as [| c s IH]; intros H; [reflexivity |].
  cbn [strip_trailing_slash]. destruct s as [| d s].
  - destruct (Ascii.eqb_spec c "/") as [-> | Hne]; [| reflexivity].
    exfalso. now apply (H EmptyString).
  - rewrite IH; [reflexivity |].
    intros b Hb. apply (H (String c b)). cbn. now rewrite Hb.
Qed.

Lemma startsWith_slash_truthy (s : string) :
  startsWith s "/" = true -> truthy (Str s) = true.
Proof. destruct s; [discriminate | reflexivity]. Qed.

(** C4. A redirect verdict whose target begins with a slash is answered
    by a redirect to the base URL, one trailing slash of it dropped,
    followed by the target; with base [http://h:5000/] and target
    [/honeypot/fakedb] that is [http://h:5000/honeypot/fakedb]. *)
Theorem redirect_resolves_relative_target
    (env : process_env) (res : response) (req : request) (raw : string)
    (js : value) (a target : string) :
  guessBodyString req = Ok raw ->
  suspect req raw = true ->
  truthy js = true ->
  toString (action_value (action_result js)) = Ok a ->
  is_redirect a = true ->
  get (action_result js) "url" = Str target ->
  startsWith target "/" = true ->
  honeypotMiddleware env res req (AxResponse js) =
    [oracle_call env req raw;
     Redirect (Str (strip_trailing_slash (HONEYPOT_BASE env) ++ target))] /\
  (forall b, HONEYPOT_BASE env = b ++ "/" ->
     strip_trailing_slash (HONEYPOT_BASE env) = b) /\
  ((forall b, HONEYPOT_BASE env <> b ++ "/") ->
     strip_trailing_slash (HONEYPOT_BASE env) = HONEYPOT_BASE env) /\
  (env_HONEYPOT_BASE env = Some "http://h:5000/" ->
   target = "/honeypot/fakedb" ->
   honeypotMiddleware env res req (AxResponse js) =
     [oracle_call env req raw;
      Redirect (Str "http://h:5000/honeypot/fakedb")]).
Proof.
  intros Hraw Hs Hj Ha Hr Hu Hsl.
  assert (Hrun : honeypotMiddleware env res req (AxResponse js) =
    [oracle_call env req raw;
     Redirect (Str (strip_trailing_slash (HONEYPOT_BASE env) ++ target))]).
  { rewrite (middleware_answer env res req raw js Hraw Hs Hj), closed_enforce.
    cbv zeta. rewrite Ha, Hr. unfold resolve_redirect, or_else.
    now rewrite Hu, (startsWith_slash_truthy _ Hsl), Hsl. }
  split; [exact Hrun |]. split; [| split].
  - intros b Hb. rewrite Hb. apply strip_trailing_slash_app.
  - apply strip_trailing_slash_other.
  - intros Hbase ->. rewrite Hrun. unfold HONEYPOT_BASE. now rewrite Hbase.
Qed.

Lemma redirect_resolves_relative_target_witness :
  honeypotMiddleware env_h5000 res_strict login_attack
    (AxResponse (answer [("action", Str "redirect");
                         ("url", Str "/honeypot/fakedb")])) =
  [oracle_call env_h5000 login_attack login_attack_raw;
   Redirect (Str "http://h:5000/honeypot/fakedb")].
Proof.
  refine (proj2 (proj2 (proj2
    (redirect_resolves_relative_target env_h5000 res_strict login_attack
       login_attack_raw
       (answer [("action", Str "redirect"); ("url", Str "/honeypot/fakedb")])
       "redirect" "/honeypot/fakedb" _ _ _ _ _ _ _))) _ _); reflexivity.
Defined.

(** C5, as stated, fails: a fake-data verdict that gives status 201 is
    answered with status 200. *)
Lemma fake_data_status_is_fixed :
  get (action_result (answer [("action", Str "fake_data");
                              ("fake_payload", Obj [("foo", Num 1)]);
                              ("status", Num 201)])) "status" = Num 201 /\
  honeypotMiddleware env_default res_strict login_attack
    (AxResponse (answer [("action", Str "fake_data");
                         ("fake_payload", Obj [("foo", Num 1)]);
                         ("status", Num 201)])) =
  [oracle_call env_default login_attack login_attack_raw;
   StatusJson (Num 200) (Obj [("foo", Num 1)])].
Proof. split; reflexivity. Qed.

(** C5, amended. A fake-data verdict is answered with status 200 whatever
    status the verdict gives, and with the verdict's [fake_payload] as
    body when that is truthy, the placeholder [{fake: "simulated data"}]
    otherwise. *)
Theorem fake_data_response
    (env : process_env) (res : response) (req : request) (raw : string)
    (js : value) :
  guessBodyString req = Ok raw ->
  suspect req raw = true ->
  truthy js = true ->
  toString (action_value (action_result js)) = Ok "fake_data" ->
  exists body,
    honeypotMiddleware env res req (AxResponse js) =
      [oracle_call env req raw; StatusJson (Num 200) body] /\
    (truthy (get (action_result js) "fake_payload") = true ->
       body = get (action_result js) "fake_payload") /\
    (truthy (get (action_result js) "fake_payload") = false ->
       body = fake_placeholder).
Proof.
  intros Hraw Hs Hj Ha.
  exists (or_else (get (action_result js) "fake_payload") fake_placeholder).
  split.
  - rewrite (middleware_answer env res req raw js Hraw Hs Hj), closed_enforce.
    cbv zeta. now rewrite Ha.
  - unfold or_else. split; intros ->; reflexivity.
Qed.

Lemma fake_data_response_witness :
  exists body,
    honeypotMiddleware env_default res_strict login_attack
      (AxResponse (answer [("action", Str "fake_data");
                           ("fake_payload", Obj [("foo", Num 1)])])) =
      [oracle_call env_default login_attack login_attack_raw;
       StatusJson (Num 200) body] /\
    body = Obj [("foo", Num 1)].
Proof.
  destruct (fake_data_response env_default res_strict login_attack
              login_attack_raw
              (answer [("action", Str "fake_data");
                       ("fake_payload", Obj [("foo", Num 1)])])
              eq_refl eq_refl eq_refl eq_refl) as [body [Hrun [Hgiven _]]].
  exists body. split; [exact Hrun | exact (Hgiven eq_refl)].
Defined.

Lemma is_tarpit_not_earlier (a : string) :
  is_tarpit a = true -> is_redirect a = false /\ (a =? "fake_data") = false.
Proof.
  unfold is_tarpit. rewrite !orb_true_iff, !String.eqb_eq.
  intros [[-> | ->] | ->]; split; reflexivity.
Qed.

(** The run of a request that reaches the tarpit branch: the timer, then
    the send, which is recorded when it returns and followed by the
    final [next()] when it throws. *)
Lemma tarpit_run (env : process_env) (res : response) (req : request)
    (raw : string) (js : value) (a : string) (d : number) :
  guessBodyString req = Ok raw ->
  suspect req raw = true ->
  truthy js = true ->
  toString (action_value (action_result js)) = Ok a ->
  is_tarpit a = true ->
  truthy (get (action_result js) "fake") = false ->
  parseInt (or_else (get (action_result js) "delay_ms") (Num 1000)) = Ok d ->
  honeypotMiddleware env res req (AxResponse js) =
    [oracle_call env req raw;
     SetTimeout d;
     outcome_of res
       (StatusSend (or_else (get (action_result js) "status") (Num 200))
                   (or_else (get (action_result js) "message") (Str "Slow down")))].
Proof.
  intros Hraw Hs Hj Ha Ht Hf Hd.
  destruct (is_tarpit_not_earlier a Ht) as [Hr Hfd].
  rewrite (middleware_answer env res req raw js Hraw Hs Hj), closed_enforce.
  cbv zeta. now rewrite Ha, Hr, Hfd, Hf, Ht, Hd.
Qed.

Lemma wait_of_tarpit_trace (call : event) (d : number) (s m : value) :
  is_post call = true ->
  wait_before_response [call; SetTimeout d; StatusSend s m] = timer_wait d.
Proof.
  destruct call; try discriminate. intros _. cbn. apply Z.add_0_r.
Qed.

Lemma timer_wait_in_range (n : Z) :
  (1 <= n <= 2147483647)%Z -> timer_wait (Int n) = n.
Proof.
  intros [H1 H2]. unfold timer_wait.
  apply Z.leb_le in H1. apply Z.leb_le in H2. now rewrite H1, H2.
Qed.

(** C6, as stated, fails: a tarpit verdict that gives the delay 0 is not
    answered after 0 ms but after the timer is set to 1000 ms; and when
    the send throws (a response object that refuses the status 42), no
    response with the verdict's status is emitted at all. *)
Lemma zero_delay_is_not_honoured :
  get (action_result (answer [("action", Str "tarpit"); ("delay_ms", Num 0)]))
      "delay_ms" = Num 0 /\
  honeypotMiddleware env_default res_strict login_attack
    (AxResponse (answer [("action", Str "tarpit"); ("delay_ms", Num 0)])) =
  [oracle_call env_default login_attack login_attack_raw;
   SetTimeout (Int 1000);
   StatusSend (Num 200) (Str "Slow down")] /\
  honeypotMiddleware env_default res_strict login_attack
    (AxResponse (answer [("action", Str "tarpit"); ("delay_ms", Num 50);
                         ("status", Num 42)])) =
  [oracle_call env_default login_attack login_attack_raw;
   SetTimeout (Int 50);
   Next].
Proof. repeat split; reflexivity. Qed.

(** C6, amended. For a verdict whose action is [tarpit], [tarpit_slowdown]
    or [delay] and whose [fake] flag is absent or falsy, the middleware
    sets the timer to [parseInt(delay_ms || 1000)] (the verdict's delay
    when [delay_ms] is a non-zero integer, 1000 when it is absent, zero
    or otherwise falsy) and only after it calls the send with the
    verdict's status (200 when falsy) and message ("Slow down" when
    falsy). When the send returns, the response is emitted no earlier
    than the timer's wait after the verdict is received: the verdict's
    delay when that is an integer from 1 to 2^31-1 ms, 1000 ms when
    [delay_ms] is absent or falsy. When the send throws, the request
    passes through after the timer. *)
Theorem tarpit_response
    (env : process_env) (res : response) (req : request) (raw : string)
    (js : value) (a : string) (d : number) :
  guessBodyString req = Ok raw ->
  suspect req raw = true ->
  truthy js = true ->
  toString (action_value (action_result js)) = Ok a ->
  is_tarpit a = true ->
  truthy (get (action_result js) "fake") = false ->
  parseInt (or_else (get (action_result js) "delay_ms") (Num 1000)) = Ok d ->
  let status := or_else (get (action_result js) "status") (Num 200) in
  let message := or_else (get (action_result js) "message") (Str "Slow down") in
  let tr := honeypotMiddleware env res req (AxResponse js) in
  (send_throws res status message = false ->
     tr = [oracle_call env req raw; SetTimeout d; StatusSend status message] /\
     wait_before_response tr = timer_wait d) /\
  (send_throws res status message = true ->
     tr = [oracle_call env req raw; SetTimeout d; Next]) /\
  (forall n : safe_int,
     get (action_result js) "delay_ms" = Number n -> int_value n <> 0%Z ->
     d = Int n /\
     ((1 <= n <= 2147483647)%Z -> timer_wait d = n)) /\
  (truthy (get (action_result js) "delay_ms") = false ->
     d = Int 1000 /\ timer_wait d = 1000%Z).
Proof.
  intros Hraw Hs Hj Ha Ht Hf Hd. cbv zeta.
  pose proof (tarpit_run env res req raw js a d Hraw Hs Hj Ha Ht Hf Hd) as Hrun.
  unfold outcome_of in Hrun. cbn [throws] in Hrun.
  split; [| split; [| split]].
  - intros Hret. rewrite Hret in Hrun. split; [exact Hrun |].
    rewrite Hrun. now apply wait_of_tarpit_trace.
  - intros Hthr. now rewrite Hthr in Hrun.
  - intros n Hn Hnz. rewrite Hn in Hd. unfold or_else in Hd.
    cbn [truthy] in Hd. apply Z.eqb_neq in Hnz. rewrite Hnz in Hd.
    cbn [negb] in Hd. rewrite parseInt_Number in Hd. injection Hd as <-.
    split; [reflexivity | apply timer_wait_in_range].
  - intros Hfalsy. unfold or_else in Hd. rewrite Hfalsy in Hd.
    rewrite parseInt_Number in Hd. injection Hd as <-.
    split; reflexivity.
Qed.

Lemma tarpit_response_witness :
  (honeypotMiddleware env_default res_strict login_attack
     (AxResponse (answer [("action", Str "delay"); ("delay_ms", Num 50);
                          ("status", Num 429)])) =
   [oracle_call env_default login_attack login_attack_raw;
    SetTimeout (Int 50);
    StatusSend (Num 429) (Str "Slow down")] /\
   wait_before_response
     (honeypotMiddleware env_default res_strict login_attack
        (AxResponse (answer [("action", Str "delay"); ("delay_ms", Num 50);
                             ("status", Num 429)]))) = timer_wait (Int 50)) /\
  honeypotMiddleware env_default res_strict login_attack
    (AxResponse (answer [("action", Str "delay"); ("delay_ms", Num 50);
                         ("status", Num 42)])) =
  [oracle_call env_default login_attack login_attack_raw;
   SetTimeout (Int 50);
   Next].
Proof.
  split.
  - exact (proj1 (tarpit_response env_default res_strict login_attack
      login_attack_raw
      (answer [("action", Str "delay"); ("delay_ms", Num 50); ("status", Num 429)])
      "delay" (Int 50) eq_refl eq_refl eq_refl eq_refl eq_refl eq_refl eq_refl)
      eq_refl).
  - exact (proj1 (proj2 (tarpit_response env_default res_strict login_attack
      login_attack_raw
      (answer [("action", Str "delay"); ("delay_ms", Num 50); ("status", Num 42)])
      "delay" (Int 50) eq_refl eq_refl eq_refl eq_refl eq_refl eq_refl eq_refl))
      eq_refl).
Defined.

(** C10. A tarpit verdict whose [delay_ms] is 0, the empty string or any
    other falsy value sets the timer to the 1000 ms default, exactly as a
    verdict without [delay_ms] does; the send follows the timer, and the
    final [next()] does when the send throws. *)
Theorem falsy_delay_is_the_default
    (env : process_env) (res : response) (req : request) (raw : string)
    (js : value) (a : string) :
  guessBodyString req = Ok raw ->
  suspect req raw = true ->
  truthy js = true ->
  toString (action_value (action_result js)) = Ok a ->
  is_tarpit a = true ->
  truthy (get (action_result js) "fake") = false ->
  truthy (get (action_result js) "delay_ms") = false ->
  let status := or_else (get (action_result js) "status") (Num 200) in
  let message := or_else (get (action_result js) "message") (Str "Slow down") in
  honeypotMiddleware env res req (AxResponse js) =
    [oracle_call env req raw;
     SetTimeout (Int 1000);
     if send_throws res status message then Next
     else StatusSend status message].
Proof.
  intros Hraw Hs Hj Ha Ht Hf Hfalsy. cbv zeta.
  rewrite (tarpit_run env res req raw js a (Int 1000)); try assumption.
  - reflexivity.
  - unfold or_else. rewrite Hfalsy. apply (parseInt_Number {| int_value := 1000%Z; int_exact := eq_refl |}).
Qed.

Lemma falsy_delay_is_the_default_witness :
  honeypotMiddleware env_default res_strict login_attack
    (AxResponse (answer [("action", Str "tarpit"); ("delay_ms", Num 0)])) =
  [oracle_call env_default login_attack login_attack_raw;
   SetTimeout (Int 1000);
   StatusSend (Num 200) (Str "Slow down")] /\
  honeypotMiddleware env_default res_strict login_attack
    (AxResponse (answer [("action", Str "tarpit");
                         ("delay_ms", Str EmptyString);
                         ("status", Num 42)])) =
  [oracle_call env_default login_attack login_attack_raw;
   SetTimeout (Int 1000);
   Next].
Proof.
  split.
  - exact (falsy_delay_is_the_default env_default res_strict login_attack
      login_attack_raw
      (answer [("action", Str "tarpit"); ("delay_ms", Num 0)]) "tarpit"
      eq_refl eq_refl eq_refl eq_refl eq_refl eq_refl eq_refl).
  - exact (falsy_delay_is_the_default env_default res_strict login_attack
      login_attack_raw
      (answer [("action", Str "tarpit"); ("delay_ms", Str EmptyString);
               ("status", Num 42)]) "tarpit"
      eq_refl eq_refl eq_refl eq_refl eq_refl eq_refl eq_refl).
Defined.

(** The run of a request whose answer takes the fake-data branch. *)
Lemma fake_run (env : process_env) (res : response) (req : request)
    (raw : string) (js : value) (a : string) :
  guessBodyString req = Ok raw ->
  suspect req raw = true ->
  truthy js = true ->
  toString (action_value (action_result js)) = Ok a ->
  is_redirect a = false ->
  (a =? "fake_data") || truthy (get (action_result js) "fake") = true ->
  honeypotMiddleware env res req (AxResponse js) =
    [oracle_call env req raw;
     StatusJson (Num 200)
       (or_else (get (action_result js) "fake_payload") fake_placeholder)].
Proof.
  intros Hraw Hs Hj Ha Hr Hf.
  rewrite (middleware_answer env res req raw js Hraw Hs Hj), closed_enforce.
  cbv zeta. now rewrite Ha, Hr, Hf.
Qed.

Lemma outcome_of_not_timer (res : response) (e : event) (d : number) :
  (forall d', e <> SetTimeout d') -> outcome_of res e <> SetTimeout d.
Proof.
  intros H. unfold outcome_of. destruct (throws res e); [discriminate | apply H].
Qed.

(** A timer is set only on an answer whose [fake] flag is falsy. *)
Lemma timer_needs_no_fake (env : process_env) (res : response)
    (req : request) (ax : axios_outcome) (d : number) :
  In (SetTimeout d) (honeypotMiddleware env res req ax) ->
  exists js a,
    ax = AxResponse js /\
    toString (action_value (action_result js)) = Ok a /\
    is_tarpit a = true /\
    truthy (get (action_result js) "fake") = false.
Proof.
  destruct (guessBodyString req) as [raw | e] eqn:Hraw.
  2:{ rewrite (middleware_unreadable env res req ax e Hraw).
      cbn. intros [H | []]. discriminate H. }
  destruct (suspect req raw) eqn:Hs.
  2:{ rewrite (middleware_benign env res req ax raw Hraw Hs).
      cbn. intros [H | []]. discriminate H. }
  rewrite (middleware_suspect env res req ax raw Hraw Hs).
  assert (Hno : ~ In (SetTimeout d) [oracle_call env req raw; Next]).
  { unfold oracle_call. cbn. intros [H | [H | []]]; discriminate H. }
  destruct ax as [| | js]; try (intros H; now destruct (Hno H)).
  destruct (truthy js); [| intros H; now destruct (Hno H)].
  rewrite closed_enforce. cbv zeta.
  destruct (toString _) as [a | e] eqn:Ha;
    [| intros H; now destruct (Hno H)].
  destruct (is_redirect a).
  { unfold oracle_call. cbn. intros [H | [H | []]]; [discriminate H |].
    exfalso. revert H. apply outcome_of_not_timer. intros d'. discriminate. }
  destruct (a =? "fake_data") eqn:Hfd.
  { unfold oracle_call. cbn. intros [H | [H | []]]; discriminate H. }
  destruct (truthy (get (action_result js) "fake")) eqn:Hf.
  { unfold oracle_call. cbn. intros [H | [H | []]]; discriminate H. }
  cbn [orb]. destruct (is_tarpit a) eqn:Ht.
  - intros _. now exists js, a.
  - intros H. now destruct (Hno H).
Qed.

(** C9. The branches are tried in the order redirect, fake data, tarpit:
    an answer whose [fake] flag is truthy and whose action is not a
    redirect is served the fake data, whatever the action is (a tarpit
    one or an unknown one included), so that a timer is set only when
    [fake] is absent or falsy. *)
Theorem fake_flag_precedes_tarpit
    (env : process_env) (res : response) (req : request) :
  (forall (raw : string) (js : value) (a : string),
     guessBodyString req = Ok raw ->
     suspect req raw = true ->
     truthy js = true ->
     toString (action_value (action_result js)) = Ok a ->
     is_redirect a = false ->
     truthy (get (action_result js) "fake") = true ->
     honeypotMiddleware env res req (AxResponse js) =
       [oracle_call env req raw;
        StatusJson (Num 200)
          (or_else (get (action_result js) "fake_payload") fake_placeholder)]) /\
  (forall (ax : axios_outcome) (d : number),
     In (SetTimeout d) (honeypotMiddleware env res req ax) ->
     exists js, ax = AxResponse js /\
                truthy (get (action_result js) "fake") = false).
Proof.
  split.
  - intros raw js a Hraw Hs Hj Ha Hr Hf.
    apply (fake_run env res req raw js a); try assumption.
    rewrite Hf. apply orb_true_r.
  - intros ax d H.
    destruct (timer_needs_no_fake env res req ax d H)
      as [js [a [-> [_ [_ Hf]]]]].
    now exists js.
Qed.

Lemma fake_flag_precedes_tarpit_witness :
  honeypotMiddleware env_default res_strict login_attack
    (AxResponse (answer [("action", Str "tarpit"); ("delay_ms", Num 50);
                         ("fake", Bool true)])) =
  [oracle_call env_default login_attack login_attack_raw;
   StatusJson (Num 200) fake_placeholder] /\
  exists js,
    AxResponse (answer [("action", Str "tarpit"); ("delay_ms", Num 50)])
      = AxResponse js /\
    truthy (get (action_result js) "fake") = false.
Proof.
  split.
  - exact (proj1 (fake_flag_precedes_tarpit env_default res_strict login_attack)
             login_attack_raw
             (answer [("action", Str "tarpit"); ("delay_ms", Num 50);
                      ("fake", Bool true)])
             "tarpit" eq_refl eq_refl eq_refl eq_refl eq_refl eq_refl).
  - apply (proj2 (fake_flag_precedes_tarpit env_default res_strict login_attack)
             (AxResponse (answer [("action", Str "tarpit"); ("delay_ms", Num 50)]))
             (Int 50)).
    vm_compute. right. left. reflexivity.
Defined.

(** Whatever is thrown inside the [try] block, by the language or by a
    response call, is thrown before any terminal call is recorded. *)
Lemma throw_before_terminal (env : process_env) (res : response)
    (req : request) (ax : axios_outcome) (tr : list event) (e : exn) :
  try_block env res req ax [] = (tr, Throw e) ->
  passthroughs tr = 0 /\ responses tr = 0.
Proof.
  destruct (guessBodyString req) as [raw | e'] eqn:Hraw.
  2:{ unfold try_block, bind, lift. rewrite Hraw.
      intros H. injection H as <- _. split; reflexivity. }
  destruct (suspect req raw) eqn:Hs.
  2:{ unfold try_block, bind, lift. rewrite Hraw, Hs. discriminate. }
  rewrite (try_block_suspect env res req ax raw Hraw Hs).
  destruct ax as [| | js]; try discriminate.
  destruct (truthy js); [| discriminate].
  rewrite enforce_run. cbv zeta.
  destruct (toString _) as [a | e'].
  2:{ intros H. injection H as <- _. split; reflexivity. }
  destruct (is_redirect a).
  { rewrite respond_run. destruct (throws res _); [| discriminate].
    intros H. injection H as <- _. split; reflexivity. }
  destruct ((a =? "fake_data") || _); [discriminate |].
  destruct (is_tarpit a); [| discriminate].
  destruct (parseInt _).
  - rewrite respond_run. destruct (throws res _); [| discriminate].
    intros H. injection H as <- _. split; reflexivity.
  - intros H. injection H as <- _. split; reflexivity.
Qed.

(** C7, as stated, fails for the redirect target: a redirect verdict
    without a target does not pass through but is redirected to the
    default honeypot path, and a target that is no URL is handed to the
    redirect as it is. *)
Lemma missing_target_is_redirected :
  honeypotMiddleware env_default res_strict login_attack
    (AxResponse (answer [("action", Str "redirect")])) =
  [oracle_call env_default login_attack login_attack_raw;
   Redirect (Str "http://127.0.0.1:5000/honeypot/fakedb")] /\
  honeypotMiddleware env_default res_strict login_attack
    (AxResponse (answer [("action", Str "redirect");
                         ("url", Str "::no url::")])) =
  [oracle_call env_default login_attack login_attack_raw;
   Redirect (Str "::no url::")] /\
  passthroughs (honeypotMiddleware env_default res_strict login_attack
    (AxResponse (answer [("action", Str "redirect")]))) = 0.
Proof. repeat split; reflexivity. Qed.

(** C7, amended. Whatever is thrown inside the [try] block, by the
    language or by a call on the response object, is caught before any
    terminal call is recorded, and the request then passes through; an
    answer without a usable action passes through. But a redirect
    verdict without a target is redirected to the default
    [/honeypot/fakedb] under the base URL, a target that is a string not
    beginning with a slash is redirected to unchanged, and a truthy
    target that is no string is handed to the redirect unchanged, the
    request passing through only if that call throws. *)
Theorem failures_fail_open
    (env : process_env) (res : response) (req : request)
    (ax : axios_outcome) :
  (forall (tr : list event) (e : exn),
     try_block env res req ax [] = (tr, Throw e) ->
     honeypotMiddleware env res req ax = (tr ++ [Next])%list /\
     passthroughs tr = 0 /\ responses tr = 0) /\
  (no_verdict ax ->
     honeypotMiddleware env res req ax =
       (consultation env req ++ [Next])%list) /\
  (forall (raw : string) (js : value) (a : string),
     guessBodyString req = Ok raw ->
     suspect req raw = true ->
     ax = AxResponse js ->
     truthy js = true ->
     toString (action_value (action_result js)) = Ok a ->
     is_redirect a = true ->
     (truthy (get (action_result js) "url") = false ->
        honeypotMiddleware env res req ax =
          [oracle_call env req raw;
           Redirect (Str (strip_trailing_slash (HONEYPOT_BASE env)
                          ++ "/honeypot/fakedb"))]) /\
     (forall s, get (action_result js) "url" = Str s ->
                truthy (Str s) = true -> startsWith s "/" = false ->
        honeypotMiddleware env res req ax =
          [oracle_call env req raw; Redirect (Str s)]) /\
     (truthy (get (action_result js) "url") = true ->
      typeof_string (get (action_result js) "url") = false ->
        honeypotMiddleware env res req ax =
          [oracle_call env req raw;
           if redirect_throws res (get (action_result js) "url") then Next
           else Redirect (get (action_result js) "url")])).
Proof.
  split; [| split].
  - intros tr e H.
    split; [| exact (throw_before_terminal env res req ax tr e H)].
    unfold honeypotMiddleware. now rewrite H.
  - apply no_verdict_run.
  - intros raw js a Hraw Hs -> Hj Ha Hr.
    rewrite (middleware_answer env res req raw js Hraw Hs Hj), closed_enforce.
    cbv zeta. rewrite Ha, Hr. unfold resolve_redirect, or_else.
    split; [| split].
    + intros Hu. now rewrite Hu.
    + intros s Hu Ht Hrel. now rewrite Hu, Ht, Hrel.
    + intros Hu Hns. rewrite Hu.
      destruct (get (action_result js) "url") as [| | | | s | |] eqn:Eu;
        try reflexivity.
      discriminate Hns.
Qed.

Lemma failures_fail_open_witness :
  honeypotMiddleware env_default res_strict login_attack
    (AxResponse (answer [("action", Str "tarpit");
                         ("delay_ms", Obj [("toString", Num 1)])])) =
  [oracle_call env_default login_attack login_attack_raw; Next] /\
  honeypotMiddleware env_default res_strict login_attack
    (AxResponse (answer [("action", Str "tarpit"); ("status", Num 42)])) =
  [oracle_call env_default login_attack login_attack_raw;
   SetTimeout (Int 1000); Next] /\
  honeypotMiddleware env_default res_strict login_attack
    (AxResponse (answer [("action", Obj [("toString", Num 1)])])) =
  [oracle_call env_default login_attack login_attack_raw; Next] /\
  honeypotMiddleware env_default res_strict login_attack
    (AxResponse (answer [("action", Str "redirect"); ("url", Num 42)])) =
  [oracle_call env_default login_attack login_attack_raw; Redirect (Num 42)].
Proof.
  split; [| split; [| split]].
  - exact (proj1 (proj1 (failures_fail_open env_default res_strict login_attack
      (AxResponse (answer [("action", Str "tarpit");
                           ("delay_ms", Obj [("toString", Num 1)])])))
      [oracle_call env_default login_attack login_attack_raw] TypeError eq_refl)).
  - exact (proj1 (proj1 (failures_fail_open env_default res_strict login_attack
      (AxResponse (answer [("action", Str "tarpit"); ("status", Num 42)])))
      [oracle_call env_default login_attack login_attack_raw;
       SetTimeout (Int 1000)] ResponseError eq_refl)).
  - exact (proj1 (proj2 (failures_fail_open env_default res_strict login_attack
      (AxResponse (answer [("action", Obj [("toString", Num 1)])]))))
      (nv_unreadable_action
         (answer [("action", Obj [("toString", Num 1)])]) TypeError
         eq_refl eq_refl)).
  - exact (proj2 (proj2 (proj2 (proj2 (failures_fail_open env_default res_strict
      login_attack
      (AxResponse (answer [("action", Str "redirect"); ("url", Num 42)]))))
      login_attack_raw
      (answer [("action", Str "redirect"); ("url", Num 42)]) "redirect"
      eq_refl eq_refl eq_refl eq_refl eq_refl eq_refl)) eq_refl eq_refl).
Defined.

(** C8, as stated, fails in both directions: a top-level action
    descriptor naming a redirect is not enforced (the request passes
    through), and an answer of another shape, an [action_result] with
    only a [fake] flag, is enforced as fake data. *)
Lemma top_level_descriptor_is_ignored :
  spec_verdict_action (Obj [("action", Str "redirect");
                            ("url", Str "/honeypot/fakedb")])
    = Some "redirect" /\
  honeypotMiddleware env_default res_strict login_attack
    (AxResponse (Obj [("action", Str "redirect");
                      ("url", Str "/honeypot/fakedb")])) =
  [oracle_call env_default login_attack login_attack_raw; Next] /\
  spec_verdict_action (answer [("fake", Bool true)]) = None /\
  honeypotMiddleware env_default res_strict login_attack
    (AxResponse (answer [("fake", Bool true)])) =
  [oracle_call env_default login_attack login_attack_raw;
   StatusJson (Num 200) fake_placeholder].
Proof. repeat split; reflexivity. Qed.

(** C8, amended. Only the nested [action_result] of an answer is read:
    answers with the same [action_result] are enforced alike, and one
    without it passes through. The action is [action_result.action], or
    else [action_result.action_type], or else [normal], as a string:
    [redirect] and [redirect_honeypot] call the redirect; otherwise
    [fake_data] or a truthy [fake] serves fake data; otherwise [tarpit],
    [tarpit_slowdown] and [delay] set the timer and then call the send;
    anything else, [normal] and [allow] included, passes through. A
    redirect or send that returns is the response; one that throws is
    followed by the final [next()] instead. *)
Theorem answer_interpretation
    (env : process_env) (res : response) (req : request) (raw : string)
    (js : value) :
  guessBodyString req = Ok raw ->
  suspect req raw = true ->
  truthy js = true ->
  let tr := honeypotMiddleware env res req (AxResponse js) in
  let ar := action_result js in
  let call := oracle_call env req raw in
  (forall js', truthy js' = true ->
     get js' "action_result" = get js "action_result" ->
     honeypotMiddleware env res req (AxResponse js') = tr) /\
  (truthy (get js "action_result") = false -> tr = [call; Next]) /\
  (forall a, toString (action_value ar) = Ok a ->
     (is_redirect a = true ->
        (throws res (Redirect (resolve_redirect env ar)) = false ->
           tr = [call; Redirect (resolve_redirect env ar)]) /\
        (throws res (Redirect (resolve_redirect env ar)) = true ->
           tr = [call; Next])) /\
     (is_redirect a = false ->
      (a =? "fake_data") || truthy (get ar "fake") = true ->
        tr = [call; StatusJson (Num 200)
                      (or_else (get ar "fake_payload") fake_placeholder)]) /\
     (is_tarpit a = true -> truthy (get ar "fake") = false ->
      forall d, parseInt (or_else (get ar "delay_ms") (Num 1000)) = Ok d ->
        let status := or_else (get ar "status") (Num 200) in
        let message := or_else (get ar "message") (Str "Slow down") in
        (send_throws res status message = false ->
           tr = [call; SetTimeout d; StatusSend status message]) /\
        (send_throws res status message = true ->
           tr = [call; SetTimeout d; Next])) /\
     (recognised a = false -> truthy (get ar "fake") = false ->
        tr = [call; Next])).
Proof.
  intros Hraw Hs Hj. cbv zeta. split; [| split].
  - intros js' Hj' Heq.
    rewrite !(middleware_answer env res req raw _ Hraw Hs) by assumption.
    rewrite !closed_enforce. unfold action_result. now rewrite Heq.
  - intros Hnone.
    rewrite (no_verdict_run env res req (AxResponse js)).
    + unfold consultation. now rewrite Hraw, Hs.
    + apply nv_missing_action; try assumption;
        unfold action_result, or_else; rewrite Hnone; reflexivity.
  - intros a Ha. split; [| split; [| split]].
    + intros Hr.
      rewrite (middleware_answer env res req raw js Hraw Hs Hj), closed_enforce.
      cbv zeta. rewrite Ha, Hr. unfold outcome_of.
      split; intros ->; reflexivity.
    + intros Hr Hf. now apply (fake_run env res req raw js a).
    + intros Ht Hf d Hd.
      rewrite (tarpit_run env res req raw js a d) by assumption.
      unfold outcome_of. cbn [throws]. split; intros ->; reflexivity.
    + intros Hrec Hf.
      rewrite (no_verdict_run env res req (AxResponse js)).
      * unfold consultation. now rewrite Hraw, Hs.
      * now apply (nv_unknown_action js a).
Qed.

Lemma answer_interpretation_witness :
  honeypotMiddleware env_default res_strict login_attack
    (AxResponse (answer [("action", Str "allow")])) =
  [oracle_call env_default login_attack login_attack_raw; Next] /\
  honeypotMiddleware env_default res_strict login_attack
    (AxResponse (Obj [("action", Str "redirect");
                      ("action_result", Obj [("action", Str "allow")])])) =
  honeypotMiddleware env_default res_strict login_attack
    (AxResponse (answer [("action", Str "allow")])) /\
  honeypotMiddleware env_default res_strict login_attack
    (AxResponse (answer [("action", Str "tarpit_slowdown");
                         ("delay_ms", Num 20); ("status", Num 42)])) =
  [oracle_call env_default login_attack login_attack_raw;
   SetTimeout (Int 20); Next].
Proof.
  pose proof (answer_interpretation env_default res_strict login_attack
                login_attack_raw
                (answer [("action", Str "allow")]) eq_refl eq_refl eq_refl)
    as [Hsame [_ Hact]].
  split; [| split].
  - exact (proj2 (proj2 (proj2 (Hact "allow" eq_refl))) eq_refl eq_refl).
  - exact (Hsame (Obj [("action", Str "redirect");
                       ("action_result", Obj [("action", Str "allow")])])
             eq_refl eq_refl).
  - pose proof (answer_interpretation env_default res_strict login_attack
                login_attack_raw
                (answer [("action", Str "tarpit_slowdown");
                         ("delay_ms", Num 20); ("status", Num 42)])
                eq_refl eq_refl eq_refl) as [_ [_ Htar]].
    exact (proj2 (proj1 (proj2 (proj2 (Htar "tarpit_slowdown" eq_refl)))
                    eq_refl eq_refl (Int 20) eq_refl) eq_refl).
Defined.

(** ** Further properties of the middleware *)

Section Shapes.

Variable env : process_env.
Variable res : response.

Lemma closed_enforce_from (js : value) (c : event) :
  closed (enforce env res js [c]) = c :: closed (enforce env res js []).
Proof.
  rewrite !closed_enforce. cbv zeta.
  destruct (toString _) as [a | e]; [| reflexivity].
  destruct (is_redirect a); [reflexivity |].
  destruct ((a =? "fake_data") || _); [reflexivity |].
  destruct (is_tarpit a); [| reflexivity].
  destruct (parseInt _); reflexivity.
Qed.

Lemma enforcement_events_closed (ax : axios_outcome) :
  enforcement_events env res ax =
  match ax with
  | AxTimeout | AxError => [Next]
  | AxResponse data =>
      if truthy data then closed (enforce env res data []) else [Next]
  end.
Proof. reflexivity. Qed.

(** A suspect request: the oracle call, then the enforcement. *)
Lemma middleware_suspect_events (req : request) (ax : axios_outcome)
    (raw : string) :
  guessBodyString req = Ok raw ->
  suspect req raw = true ->
  honeypotMiddleware env res req ax =
    oracle_call env req raw :: enforcement_events env res ax.
Proof.
  intros Hraw Hs. rewrite (middleware_suspect env res req ax raw Hraw Hs).
  rewrite enforcement_events_closed.
  destruct ax as [| | js]; try reflexivity.
  destruct (truthy js); [| reflexivity].
  apply closed_enforce_from.
Qed.

Lemma middleware_events (req : request) (ax : axios_outcome) :
  (honeypotMiddleware env res req ax = [Next] /\
   ~ (exists raw, guessBodyString req = Ok raw /\ suspect req raw = true)) \/
  (exists raw, guessBodyString req = Ok raw /\ suspect req raw = true /\
     honeypotMiddleware env res req ax =
       oracle_call env req raw :: enforcement_events env res ax).
Proof.
  destruct (guessBodyString req) as [raw | e] eqn:Hraw.
  - destruct (suspect req raw) eqn:Hs.
    + right. exists raw. repeat split; try assumption.
      now apply middleware_suspect_events.
    + left. split; [now apply (middleware_benign env res req ax raw) |].
      intros [raw' [H1 H2]]. congruence.
  - left. split; [now apply (middleware_unreadable env res req ax e) |].
    intros [raw' [H1 H2]]. congruence.
Qed.

Lemma or_else_truthy (a b : value) :
  truthy b = true -> truthy (or_else a b) = true.
Proof. intros Hb. unfold or_else. now destruct (truthy a) eqn:Ha. Qed.

Lemma append_truthy (a b : string) :
  truthy (Str b) = true -> truthy (Str (a ++ b)) = true.
Proof.
  destruct b as [| c b]; [discriminate |]. intros _.
  destruct a; reflexivity.
Qed.

Lemma resolve_redirect_truthy (ar : value) :
  truthy (resolve_redirect env ar) = true.
Proof.
  unfold resolve_redirect.
  assert (Hu : truthy (or_else (get ar "url") (Str "/honeypot/fakedb")) = true)
    by now apply or_else_truthy.
  destruct (or_else (get ar "url") (Str "/honeypot/fakedb")) as [| | | | s | |];
    try exact Hu.
  destruct (startsWith s "/"); [| exact Hu].
  now apply append_truthy.
Qed.

(** The enforcement makes no oracle call and ends with its only terminal
    call. *)
Lemma enforcement_events_shape (ax : axios_outcome) :
  enforcement_events env res ax = [Next] \/
  (exists u, enforcement_events env res ax = [Redirect u] /\ truthy u = true) \/
  (exists b, enforcement_events env res ax = [StatusJson (Num 200) b] /\
             truthy b = true) \/
  (exists d s m, enforcement_events env res ax = [SetTimeout d; StatusSend s m] /\
                 truthy s = true /\ truthy m = true) \/
  (exists d, enforcement_events env res ax = [SetTimeout d; Next]).
Proof.
  rewrite enforcement_events_closed.
  destruct ax as [| | js]; try (now left).
  destruct (truthy js); [| now left].
  rewrite closed_enforce. cbv zeta.
  destruct (toString _) as [a | e]; [| now left].
  destruct (is_redirect a).
  { unfold outcome_of. destruct (throws res _); [now left |].
    right; left. eexists. split; [reflexivity | apply resolve_redirect_truthy]. }
  destruct ((a =? "fake_data") || _).
  { right; right; left. eexists. split; [reflexivity |].
    now apply or_else_truthy. }
  destruct (is_tarpit a); [| now left].
  destruct (parseInt _) as [d | e]; [| now left].
  unfold outcome_of. destruct (throws res _).
  - right; right; right; right. now exists d.
  - right; right; right; left. exists d. eexists. eexists.
    split; [reflexivity |]. split; now apply or_else_truthy.
Qed.

Lemma enforcement_events_no_post (ax : axios_outcome) :
  filter is_post (enforcement_events env res ax) = [].
Proof.
  destruct (enforcement_events_shape ax)
    as [E | [[u [E _]] | [[b [E _]] | [[d [s [m [E _]]]] | [d E]]]]];
    rewrite E; reflexivity.
Qed.

End Shapes.

(** X1. A request runs in one of six ways: [next()] alone; or the one
    oracle call followed by [next()], by a redirect, by a 200 JSON
    response, by the timer and then a send, or by the timer and then
    [next()] (the send having thrown). So no response is synthesized
    without the oracle having been consulted first, the timer is set only
    in the tarpit branch, and nothing follows the terminal call. *)
Theorem trace_shapes
    (env : process_env) (res : response) (req : request)
    (ax : axios_outcome) :
  let tr := honeypotMiddleware env res req ax in
  tr = [Next] \/
  exists call, is_post call = true /\
    (tr = [call; Next] \/
     (exists u, tr = [call; Redirect u]) \/
     (exists b, tr = [call; StatusJson (Num 200) b]) \/
     (exists d s m, tr = [call; SetTimeout d; StatusSend s m]) \/
     (exists d, tr = [call; SetTimeout d; Next])).
Proof.
  cbv zeta.
  destruct (middleware_events env res req ax) as [[H _] | [raw [_ [_ H]]]];
    [now left | right].
  exists (oracle_call env req raw). split; [reflexivity |]. rewrite H.
  destruct (enforcement_events_shape env res ax)
    as [E | [[u [E _]] | [[b [E _]] | [[d [s [m [E _]]]] | [d E]]]]];
    rewrite E.
  - now left.
  - right; left. now exists u.
  - right; right; left. now exists b.
  - right; right; right; left. now exists d, s, m.
  - right; right; right; right. now exists d.
Qed.

(** X2. The oracle is called exactly once when the body string can be
    read and the prefilter holds the request for suspect, whatever the
    oracle then answers, and is not called at all otherwise. *)
Theorem oracle_called_iff_suspect
    (env : process_env) (res : response) (req : request)
    (ax : axios_outcome) :
  let tr := honeypotMiddleware env res req ax in
  (oracle_calls tr = 1 <->
     exists raw, guessBodyString req = Ok raw /\ suspect req raw = true) /\
  (oracle_calls tr = 0 <->
     ~ exists raw, guessBodyString req = Ok raw /\ suspect req raw = true).
Proof.
  cbv zeta. unfold oracle_calls.
  destruct (middleware_events env res req ax)
    as [[H Hn] | [raw [Hraw [Hs H]]]]; rewrite H.
  - cbn. split; split; intros; try discriminate; try reflexivity;
      try assumption. contradiction.
  - cbn [filter oracle_call is_post]. rewrite enforcement_events_no_post.
    cbn. split; split; intros; try discriminate; try reflexivity.
    + now exists raw.
    + exfalso. apply H0. now exists raw.
Qed.

Lemma oracle_called_iff_suspect_witness :
  oracle_calls (honeypotMiddleware env_default res_strict nested_attack
                  AxTimeout) = 1 /\
  oracle_calls (honeypotMiddleware env_default res_strict unreadable_probe
                  AxTimeout) = 0.
Proof.
  split.
  - apply (proj1 (oracle_called_iff_suspect env_default res_strict
                    nested_attack AxTimeout)).
    eexists. split; reflexivity.
  - apply (proj2 (oracle_called_iff_suspect env_default res_strict
                    unreadable_probe AxTimeout)).
    intros [raw [H _]]. discriminate H.
Defined.

Lemma enforcement_events_base (env1 env2 : process_env) (res : response)
    (ax : axios_outcome) :
  HONEYPOT_BASE env1 = HONEYPOT_BASE env2 ->
  enforcement_events env1 res ax = enforcement_events env2 res ax.
Proof.
  intros Hb. rewrite !enforcement_events_closed.
  destruct ax as [| | js]; try reflexivity.
  destruct (truthy js); [| reflexivity].
  rewrite !closed_enforce. cbv zeta. unfold resolve_redirect. now rewrite Hb.
Qed.

(** X3. What is done after the oracle call depends on the oracle's
    answer, on the base URL and on the response object only: two suspect
    requests, whatever their method, URL, body and address, and whatever
    the oracle endpoint and deadline, are enforced alike on the same
    answer. *)
Theorem enforcement_ignores_request
    (env1 env2 : process_env) (res : response) (req1 req2 : request)
    (raw1 raw2 : string) (ax : axios_outcome) :
  guessBodyString req1 = Ok raw1 -> suspect req1 raw1 = true ->
  guessBodyString req2 = Ok raw2 -> suspect req2 raw2 = true ->
  HONEYPOT_BASE env1 = HONEYPOT_BASE env2 ->
  tl (honeypotMiddleware env1 res req1 ax) =
  tl (honeypotMiddleware env2 res req2 ax).
Proof.
  intros H1 S1 H2 S2 Hb.
  rewrite (middleware_suspect_events env1 res req1 ax raw1 H1 S1).
  rewrite (middleware_suspect_events env2 res req2 ax raw2 H2 S2).
  cbn [tl]. now apply enforcement_events_base.
Qed.

Lemma enforcement_ignores_request_witness :
  tl (honeypotMiddleware env_default res_strict login_attack
        (AxResponse (answer [("action", Str "tarpit"); ("delay_ms", Num 250)])))
  = tl (honeypotMiddleware
          {| env_HONEYPOT_URL := Some "http://oracle:9000/v";
             env_HONEYPOT_TIMEOUT_MS := Some "50";
             env_HONEYPOT_BASE := Some "http://127.0.0.1:5000" |}
          res_strict search_probe
          (AxResponse (answer [("action", Str "tarpit"); ("delay_ms", Num 250)]))).
Proof.
  apply (enforcement_ignores_request env_default _ res_strict
           login_attack search_probe login_attack_raw search_probe_raw);
    reflexivity.
Defined.

(** X4. The one request sent to the oracle goes to the configured
    endpoint under the configured deadline; its [src_ip] is never falsy,
    being [req.ip], else the [x-forwarded-for] header, else [unknown];
    its payload is the URL for a GET, whatever the body holds, and the
    body string for any other method, whatever the URL holds. *)
Theorem oracle_request_contents
    (env : process_env) (res : response) (req : request)
    (ax : axios_outcome)
    (endpoint : string) (p : payload) (timeout : number) :
  In (Post endpoint p timeout) (honeypotMiddleware env res req ax) ->
  endpoint = HONEYPOT_URL env /\
  timeout = HONEYPOT_TIMEOUT_MS env /\
  truthy (src_ip p) = true /\
  (truthy (ip req) = true -> src_ip p = ip req) /\
  (truthy (ip req) = false -> truthy (x_forwarded_for req) = true ->
     src_ip p = x_forwarded_for req) /\
  (truthy (ip req) = false -> truthy (x_forwarded_for req) = false ->
     src_ip p = Str "unknown") /\
  (method req = "GET" -> payload_text p = request_url req) /\
  (method req <> "GET" -> guessBodyString req = Ok (payload_text p)).
Proof.
  intros Hin.
  destruct (middleware_events env res req ax)
    as [[H _] | [raw [Hraw [_ H]]]]; rewrite H in Hin.
  { cbn in Hin. destruct Hin as [E | []]. discriminate E. }
  assert (E : Post endpoint p timeout = oracle_call env req raw).
  { destruct Hin as [E | Hin]; [now symmetry |]. exfalso.
    assert (Hf : In (Post endpoint p timeout)
                    (filter is_post (enforcement_events env res ax)))
      by (apply filter_In; now split).
    now rewrite enforcement_events_no_post in Hf. }
  unfold oracle_call in E. injection E as -> -> ->. cbn [src_ip payload_text].
  repeat split.
  - now repeat apply or_else_truthy.
  - intros Hi. unfold or_else. now rewrite Hi.
  - intros Hi Hx. unfold or_else. now rewrite Hi, Hx.
  - intros Hi Hx. unfold or_else. now rewrite Hi, Hx.
  - intros ->. reflexivity.
  - intros Hm. apply String.eqb_neq in Hm. now rewrite Hm.
Qed.

Lemma oracle_request_contents_witness :
  exists p,
    src_ip p = Str "203.0.113.7" /\
    guessBodyString nested_attack = Ok (payload_text p).
Proof.
  pose proof (oracle_request_contents env_default res_strict nested_attack
    AxError
    (HONEYPOT_URL env_default)
    {| src_ip := Str "203.0.113.7";
       payload_text :=
         match guessBodyString nested_attack with
         | Ok s => s
         | Throw _ => EmptyString
         end |}
    (HONEYPOT_TIMEOUT_MS env_default)
    (or_introl eq_refl)) as [_ [_ [_ [_ [Hx [_ [_ Hbody]]]]]]].
  eexists. split.
  - exact (Hx eq_refl eq_refl).
  - apply Hbody. discriminate.
Defined.

(** X5. No response carries a falsy argument: a redirect target is never
    empty or undefined, a JSON response has status 200 and a truthy body,
    and a sent tarpit reply has a truthy status and a truthy message. *)
Theorem responses_carry_truthy_arguments
    (env : process_env) (res : response) (req : request)
    (ax : axios_outcome) :
  let tr := honeypotMiddleware env res req ax in
  (forall u, In (Redirect u) tr -> truthy u = true) /\
  (forall s b, In (StatusJson s b) tr -> s = Num 200 /\ truthy b = true) /\
  (forall s m, In (StatusSend s m) tr -> truthy s = true /\ truthy m = true).
Proof.
  cbv zeta.
  destruct (middleware_events env res req ax) as [[H _] | [raw [_ [_ H]]]];
    rewrite H.
  { repeat split; intros; cbn in *;
      repeat match goal with
             | Hx : _ \/ _ |- _ => destruct Hx as [Hx | Hx]
             end; try discriminate; contradiction. }
  unfold oracle_call.
  destruct (enforcement_events_shape env res ax)
    as [E | [[u [E Hu]] | [[b [E Hb]] | [[d [s [m [E [Hs Hm]]]]] | [d E]]]]];
    rewrite E; repeat split; intros; cbn [In] in *;
    repeat match goal with
           | Hx : _ \/ _ |- _ => destruct Hx as [Hx | Hx]
           end; try discriminate; try contradiction;
    try (match goal with Hx : _ = _ |- _ => injection Hx as <- end; assumption);
    try (match goal with Hx : _ = _ |- _ => injection Hx as <- <- end;
         first [assumption | reflexivity]).
Qed.

Lemma responses_carry_truthy_arguments_witness :
  truthy (Str "http://127.0.0.1:5000/honeypot/fakedb") = true.
Proof.
  apply (proj1 (responses_carry_truthy_arguments env_default res_strict
                  login_attack
                  (AxResponse (answer [("action", Str "redirect");
                                       ("url", Str EmptyString)])))).
  right. left. reflexivity.
Defined.

(** ** Reading the body *)

(** X6. A request without a usable parsed body whose [rawBody] is an
    object with a [toString] entry cannot be read: the exception is
    caught, the prefilter is never evaluated, and the request passes
    through without an oracle call even when its URL contains [select]. *)
Theorem unreadable_body_passes_through
    (env : process_env) (res : response) (req : request)
    (ax : axios_outcome) (props : list (string * value)) :
  truthy (body req) && (typeof_string (body req) || typeof_object (body req))
    = false ->
  rawBody req = Obj props ->
  has_own "toString" props = true ->
  guessBodyString req = Throw TypeError /\
  honeypotMiddleware env res req ax = [Next].
Proof.
  intros Hb Hr Ht.
  assert (H : guessBodyString req = Throw TypeError).
  { unfold guessBodyString. rewrite Hr. cbn [truthy toString to_string_obj].
    rewrite Ht.
    destruct (body req) as [| | b | n | s | l | l]; try reflexivity.
    - cbn in Hb. rewrite andb_true_r in Hb.
      cbn [truthy]. now rewrite Hb.
    - discriminate Hb.
    - discriminate Hb. }
  split; [exact H |]. exact (middleware_unreadable env res req ax TypeError H).
Qed.

Lemma unreadable_body_passes_through_witness :
  occurs_ci "select" (request_url unreadable_probe) /\
  honeypotMiddleware env_default res_strict unreadable_probe
    (AxResponse (answer [("action", Str "redirect")])) = [Next].
Proof.
  split.
  - exists "/q?s=", "select", EmptyString. split; reflexivity.
  - exact (proj2 (unreadable_body_passes_through env_default res_strict
             unreadable_probe
             (AxResponse (answer [("action", Str "redirect")]))
             [("toString", Num 1)] eq_refl eq_refl eq_refl)).
Defined.

Section Serialization.

Lemma substring_of_refl (a : string) : substring_of a a.
Proof. exists EmptyString, EmptyString. cbn. now rewrite append_empty_r. Qed.

Lemma append_assoc (a b c : string) : (a ++ b) ++ c = a ++ b ++ c.
Proof. induction a as [| x a IH]; cbn; [reflexivity | now rewrite IH]. Qed.

Lemma substring_of_trans (a b c : string) :
  substring_of a b -> substring_of b c -> substring_of a c.
Proof.
  intros [p1 [q1 ->]] [p2 [q2 ->]].
  exists (p2 ++ p1), (q1 ++ q2). now rewrite !append_assoc.
Qed.

Lemma substring_of_inside (a l r : string) : substring_of a (l ++ a ++ r).
Proof. now exists l, r. Qed.

Lemma substring_of_join (sep t : string) (items : list string) :
  In t items -> substring_of t (join_with sep items).
Proof.
  induction items as [| x items IH]; [intros [] |].
  intros [-> | Hin]; cbn [join_with].
  - destruct items as [| y items]; [apply substring_of_refl |].
    exists EmptyString, (sep ++ join_with sep (y :: items)). reflexivity.
  - destruct items as [| y items]; [destruct Hin |].
    apply (substring_of_trans _ _ _ (IH Hin)).
    exists (x ++ sep), EmptyString.
    now rewrite append_empty_r, append_assoc.
Qed.

Lemma stringify_defined (v : value) :
  v <> Undefined -> exists t, stringify v = Some t.
Proof.
  destruct v; intros H; try (eexists; reflexivity). congruence.
Qed.

Lemma stringify_Arr_item (elts : list value) (v : value) (t : string) :
  In v elts -> stringify v = Some t ->
  exists out, stringify (Arr elts) = Some out /\ substring_of t out.
Proof.
  intros Hin Hs. cbn [stringify]. eexists. split; [reflexivity |].
  eapply substring_of_trans; [| apply substring_of_inside].
  apply substring_of_join.
  induction elts as [| x elts IH]; [destruct Hin |].
  destruct Hin as [-> | Hin].
  - rewrite Hs. now left.
  - destruct (stringify x); right; now apply IH.
Qed.

Lemma stringify_Obj_item (props : list (string * value)) (k : string)
    (v : value) (t : string) :
  In (k, v) props -> stringify v = Some t ->
  exists out, stringify (Obj props) = Some out /\
              substring_of (quote k ++ ":" ++ t) out.
Proof.
  intros Hin Hs. cbn [stringify]. eexists. split; [reflexivity |].
  eapply substring_of_trans; [| apply substring_of_inside].
  apply substring_of_join.
  induction props as [| [k' x] props IH]; [destruct Hin |].
  destruct Hin as [E | Hin].
  - injection E as -> ->. rewrite Hs. now left.
  - destruct (stringify x); [right |]; now apply IH.
Qed.

Lemma quote_body_in_quote (s : string) : substring_of (quote_body s) (quote s).
Proof.
  unfold quote.
  exists (String (ascii_of_nat 34) EmptyString),
         (String (ascii_of_nat 34) EmptyString). reflexivity.
Qed.

(** Whatever a value mentions is in its serialization, JSON-quoted. *)
Lemma mentions_serialized (s : string) (v : value) :
  mentions s v ->
  exists out, stringify v = Some out /\ substring_of (quote_body s) out.
Proof.
  induction 1 as [| v elts Hin _ [t [Ht Hsub]]
                  | v props Hin Hv
                  | k v props Hin _ [t [Ht Hsub]]].
  - exists (quote s). split; [reflexivity | apply quote_body_in_quote].
  - destruct (stringify_Arr_item elts v t Hin Ht) as [out [Ho Hs]].
    exists out. split; [exact Ho |]. now apply (substring_of_trans _ t).
  - destruct (stringify_defined v Hv) as [t Ht].
    destruct (stringify_Obj_item props s v t Hin Ht) as [out [Ho Hs]].
    exists out. split; [exact Ho |].
    apply (substring_of_trans _ (quote s)); [apply quote_body_in_quote |].
    apply (substring_of_trans _ (quote s ++ ":" ++ t)); [| exact Hs].
    now exists EmptyString, (":" ++ t).
  - destruct (stringify_Obj_item props k v t Hin Ht) as [out [Ho Hs]].
    exists out. split; [exact Ho |].
    apply (substring_of_trans _ t); [exact Hsub |].
    apply (substring_of_trans _ (quote k ++ ":" ++ t)); [| exact Hs].
    exists (quote k ++ ":"), EmptyString.
    now rewrite append_empty_r, append_assoc.
Qed.

End Serialization.

Section Tokens.

Lemma quote_char_letter (c : ascii) :
  lower_letter (lower_ascii c) = true -> quote_char c = String c EmptyString.
Proof.
  destruct c as [[] [] [] [] [] [] [] []]; intros H;
    try discriminate H; reflexivity.
Qed.

Lemma quote_body_word (mid : string) :
  lower_word (toLowerCase mid) = true -> quote_body mid = mid.
Proof.
  induction mid as [| c mid IH]; [reflexivity |].
  cbn [toLowerCase lower_word quote_body]. intros H.
  apply andb_true_iff in H as [Hc Hm].
  now rewrite (quote_char_letter c Hc), (IH Hm).
Qed.

Lemma quote_body_app (a b : string) :
  quote_body (a ++ b) = quote_body a ++ quote_body b.
Proof.
  induction a as [| c a IH]; [reflexivity |].
  cbn [append quote_body]. now rewrite IH, append_assoc.
Qed.

Lemma occurs_ci_quote_body (tok s : string) :
  lower_word tok = true -> occurs_ci tok s -> occurs_ci tok (quote_body s).
Proof.
  intros Hw [pre [mid [post [-> Hm]]]].
  exists (quote_body pre), mid, (quote_body post). split; [| exact Hm].
  rewrite !quote_body_app. f_equal. f_equal.
  apply quote_body_word. now rewrite Hm.
Qed.

Lemma occurs_ci_substring (tok a b : string) :
  occurs_ci tok a -> substring_of a b -> occurs_ci tok b.
Proof.
  intros [pre [mid [post [-> Hm]]]] [l [r ->]].
  exists (l ++ pre), mid, (post ++ r). split; [| exact Hm].
  now rewrite !append_assoc.
Qed.

Lemma spec_tokens_words (tok : string) :
  In tok spec_tokens -> lower_word tok = true /\ tok <> EmptyString.
Proof.
  intros H. cbn in H.
  repeat (destruct H as [<- | H]; [split; [reflexivity | discriminate] |]).
  destruct H.
Qed.

Lemma occurs_ci_nonempty (tok s : string) :
  tok <> EmptyString -> occurs_ci tok s -> s <> EmptyString.
Proof.
  intros Ht [pre [mid [post [-> Hm]]]] He.
  destruct pre; [| discriminate He]. destruct mid; [| discriminate He].
  apply Ht. now rewrite <- Hm.
Qed.

(** A token in anything the body mentions is in the body string. *)
Lemma mentioned_token_in_body (req : request) (s tok : string) :
  mentions s (body req) ->
  In tok spec_tokens ->
  occurs_ci tok s ->
  exists raw, guessBodyString req = Ok raw /\ occurs_ci tok raw.
Proof.
  intros Hm Hin Hocc.
  destruct (spec_tokens_words tok Hin) as [Hw Hne].
  destruct (mentions_serialized s (body req) Hm) as [out [Hout Hsub]].
  unfold guessBodyString.
  destruct Hm as [| v elts _ _ | v props _ _ | k v props _ _].
  - exists s. split; [| exact Hocc].
    pose proof (occurs_ci_nonempty tok s Hne Hocc) as Hs.
    cbn [truthy]. apply String.eqb_neq in Hs. now rewrite Hs.
  - exists out. rewrite Hout. split; [reflexivity |].
    apply (occurs_ci_substring tok (quote_body s)); [| exact Hsub].
    now apply occurs_ci_quote_body.
  - exists out. rewrite Hout. split; [reflexivity |].
    apply (occurs_ci_substring tok (quote_body s)); [| exact Hsub].
    now apply occurs_ci_quote_body.
  - exists out. rewrite Hout. split; [reflexivity |].
    apply (occurs_ci_substring tok (quote_body s)); [| exact Hsub].
    now apply occurs_ci_quote_body.
Qed.

Lemma body_token_suspect (raw tok : string) :
  In tok spec_tokens -> occurs_ci tok raw ->
  existsb (fun t => occurs_cib t raw) spec_tokens = true.
Proof.
  intros Hin Hocc. apply existsb_exists. exists tok.
  split; [exact Hin | now apply occurs_cib_spec].
Qed.

End Tokens.

(** X7. A token in a string value at any depth of a parsed body, or in a
    property name that is serialized, makes the request suspect: the
    body is tested in its JSON form, and the quoting leaves letters
    alone. *)
Theorem nested_token_is_suspect (req : request) (s tok : string) :
  mentions s (body req) ->
  In tok spec_tokens ->
  occurs_ci tok s ->
  exists raw,
    guessBodyString req = Ok raw /\ occurs_ci tok raw /\
    suspect req raw = true.
Proof.
  intros Hm Hin Hocc.
  destruct (mentioned_token_in_body req s tok Hm Hin Hocc) as [raw [Hraw Hr]].
  exists raw. repeat split; try assumption.
  rewrite suspect_tests, (body_token_suspect raw tok Hin Hr).
  now rewrite orb_true_r.
Qed.

Lemma nested_token_is_suspect_witness :
  exists raw,
    guessBodyString nested_attack = Ok raw /\ occurs_ci "drop" raw /\
    suspect nested_attack raw = true.
Proof.
  apply (nested_token_is_suspect nested_attack "x; DROP TABLE t" "drop").
  - eapply mentions_property; [left; reflexivity |].
    eapply mentions_property; [left; reflexivity |].
    eapply mentions_element; [right; left; reflexivity |].
    apply mentions_here.
  - cbn. tauto.
  - exists "x; ", "DROP", " TABLE t". split; reflexivity.
Defined.

(** X8. The scan of the body's top-level values never decides: with the
    body string that [guessBodyString] returns, a request is suspect
    exactly when [select] or [union] is in the URL or one of the seven
    tokens is in the body string. *)
Theorem values_scan_is_redundant (req : request) (raw : string) :
  guessBodyString req = Ok raw ->
  suspect req raw =
    occurs_cib "select" (request_url req) ||
    occurs_cib "union" (request_url req) ||
    existsb (fun tok => occurs_cib tok raw) spec_tokens.
Proof.
  intros Hraw. rewrite suspect_tests.
  match goal with
  | |- _ || ?d = _ => destruct d eqn:Hd
  end; [| now rewrite orb_false_r].
  rewrite orb_true_r. symmetry.
  apply andb_true_iff in Hd as [Hobj Hex].
  apply andb_true_iff in Hobj as [Ht Ho].
  apply existsb_exists in Hex as [v [Hv Hex]].
  destruct v as [| | | | s | |]; try discriminate Hex.
  apply existsb_exists in Hex as [tok [Hin Hocc]].
  apply occurs_cib_spec in Hocc.
  assert (Hm : mentions s (body req)).
  { destruct (body req) as [| | | | | elts | props]; try discriminate Ho.
    - discriminate Ht.
    - eapply mentions_element; [exact Hv | apply mentions_here].
    - cbn [values] in Hv. apply in_map_iff in Hv as [[k x] [Hx Hk]].
      cbn in Hx. subst x.
      eapply mentions_property; [exact Hk | apply mentions_here]. }
  destruct (mentioned_token_in_body req s tok Hm Hin Hocc) as [raw' [Hraw' Hr]].
  assert (raw' = raw) by congruence. subst raw'.
  rewrite (body_token_suspect raw tok Hin Hr). now rewrite orb_true_r.
Qed.

Lemma values_scan_is_redundant_witness :
  suspect login_attack login_attack_raw =
    occurs_cib "select" (request_url login_attack) ||
    occurs_cib "union" (request_url login_attack) ||
    existsb (fun tok => occurs_cib tok login_attack_raw) spec_tokens.
Proof.
  exact (values_scan_is_redundant login_attack login_attack_raw eq_refl).
Defined.

(** X9. A tarpit delay given as a string is read as far as its decimal
    notation goes: the timer is set to the integer (of magnitude up to
    2^53) the string begins with, whatever follows it that is no digit. The string of the digit 0 is truthy, so it sets the
    timer to 0, unlike the number 0. The send follows the timer, and the
    final [next()] does when the send throws. *)
Theorem string_delay_is_parsed
    (env : process_env) (res : response) (req : request) (raw : string)
    (js : value) (a : string) (n : safe_int) (rest : string) :
  guessBodyString req = Ok raw ->
  suspect req raw = true ->
  truthy js = true ->
  toString (action_value (action_result js)) = Ok a ->
  is_tarpit a = true ->
  truthy (get (action_result js) "fake") = false ->
  get (action_result js) "delay_ms" = Str (Number_toString n ++ rest) ->
  digits_prefix rest = EmptyString ->
  let status := or_else (get (action_result js) "status") (Num 200) in
  let message := or_else (get (action_result js) "message") (Str "Slow down") in
  honeypotMiddleware env res req (AxResponse js) =
    [oracle_call env req raw;
     SetTimeout (Int n);
     if send_throws res status message then Next
     else StatusSend status message].
Proof.
  intros Hraw Hs Hj Ha Ht Hf Hd Hr. cbv zeta.
  rewrite (tarpit_run env res req raw js a (Int n)); try assumption.
  - reflexivity.
  - rewrite Hd. unfold or_else, Number_toString. rewrite decimal_truthy.
    unfold parseInt, ToString, to_string_obj.
    rewrite parse_decimal_Z_app; [reflexivity | apply int_exact | exact Hr].
Qed.

Lemma string_delay_is_parsed_witness :
  honeypotMiddleware env_default res_strict login_attack
    (AxResponse (answer [("action", Str "tarpit"); ("delay_ms", Str "0")])) =
  [oracle_call env_default login_attack login_attack_raw;
   SetTimeout (Int 0);
   StatusSend (Num 200) (Str "Slow down")] /\
  honeypotMiddleware env_default res_strict login_attack
    (AxResponse (answer [("action", Str "tarpit"); ("delay_ms", Str "250ms")])) =
  [oracle_call env_default login_attack login_attack_raw;
   SetTimeout (Int 250);
   StatusSend (Num 200) (Str "Slow down")].
Proof.
  split.
  - exact (string_delay_is_parsed env_default res_strict login_attack
      login_attack_raw
      (answer [("action", Str "tarpit"); ("delay_ms", Str "0")]) "tarpit"
      {| int_value := 0%Z; int_exact := eq_refl |} EmptyString
      eq_refl eq_refl eq_refl eq_refl eq_refl eq_refl eq_refl eq_refl).
  - exact (string_delay_is_parsed env_default res_strict login_attack
      login_attack_raw
      (answer [("action", Str "tarpit"); ("delay_ms", Str "250ms")]) "tarpit"
      {| int_value := 250%Z; int_exact := eq_refl |} "ms"
      eq_refl eq_refl eq_refl eq_refl eq_refl eq_refl eq_refl eq_refl).
Defined.

(** X10. A tarpit delay that is an object is not refused: without a
    [toString] entry of its own it prints as [[object Object]] and the
    timer is set with NaN before the send is called (the final [next()]
    following instead of the reply when the send throws); with such an
    entry printing it throws, and the request passes through without
    timer or reply. *)
Theorem object_delay
    (env : process_env) (res : response) (req : request) (raw : string)
    (js : value) (a : string) (props : list (string * value)) :
  guessBodyString req = Ok raw ->
  suspect req raw = true ->
  truthy js = true ->
  toString (action_value (action_result js)) = Ok a ->
  is_tarpit a = true ->
  truthy (get (action_result js) "fake") = false ->
  get (action_result js) "delay_ms" = Obj props ->
  let status := or_else (get (action_result js) "status") (Num 200) in
  let message := or_else (get (action_result js) "message") (Str "Slow down") in
  (has_own "toString" props = false ->
     honeypotMiddleware env res req (AxResponse js) =
       [oracle_call env req raw;
        SetTimeout NaN;
        if send_throws res status message then Next
        else StatusSend status message]) /\
  (has_own "toString" props = true ->
     honeypotMiddleware env res req (AxResponse js) =
       [oracle_call env req raw; Next]).
Proof.
  intros Hraw Hs Hj Ha Ht Hf Hd. cbv zeta. split; intros Hown.
  - rewrite (tarpit_run env res req raw js a NaN); try assumption.
    + reflexivity.
    + rewrite Hd. unfold or_else, parseInt, ToString.
      cbn [truthy to_string_obj]. now rewrite Hown.
  - destruct (is_tarpit_not_earlier a Ht) as [Hr Hfd].
    rewrite (middleware_answer env res req raw js Hraw Hs Hj), closed_enforce.
    cbv zeta. rewrite Ha, Hr, Hfd, Hf, Ht, Hd.
    unfold or_else, parseInt, ToString. cbn [truthy to_string_obj orb].
    now rewrite Hown.
Qed.

Lemma object_delay_witness :
  honeypotMiddleware env_default res_strict login_attack
    (AxResponse (answer [("action", Str "delay");
                         ("delay_ms", Obj [("ms", Num 50)])])) =
  [oracle_call env_default login_attack login_attack_raw;
   SetTimeout NaN;
   StatusSend (Num 200) (Str "Slow down")] /\
  honeypotMiddleware env_default res_strict login_attack
    (AxResponse (answer [("action", Str "delay");
                         ("delay_ms", Obj [("toString", Str "50")])])) =
  [oracle_call env_default login_attack login_attack_raw; Next].
Proof.
  split.
  - exact (proj1 (object_delay env_default res_strict login_attack
      login_attack_raw
      (answer [("action", Str "delay"); ("delay_ms", Obj [("ms", Num 50)])])
      "delay" [("ms", Num 50)]
      eq_refl eq_refl eq_refl eq_refl eq_refl eq_refl eq_refl) eq_refl).
  - exact (proj2 (object_delay env_default res_strict login_attack
      login_attack_raw
      (answer [("action", Str "delay");
               ("delay_ms", Obj [("toString", Str "50")])])
      "delay" [("toString", Str "50")]
      eq_refl eq_refl eq_refl eq_refl eq_refl eq_refl eq_refl) eq_refl).
Defined.

(** X11. The oracle deadline is read from the environment with
    [parseInt]: unset or empty it is 2000 ms; set to a text that begins
    with the decimal notation of an integer (of magnitude up to 2^53) it
    is that integer, whatever follows; and set to a
    text that begins with neither white space, sign nor digit it is NaN.
    The endpoint and the base URL are never empty. *)
Theorem deadline_configuration (env : process_env) :
  ((env_HONEYPOT_TIMEOUT_MS env = None \/
    env_HONEYPOT_TIMEOUT_MS env = Some EmptyString) ->
     HONEYPOT_TIMEOUT_MS env = Int 2000) /\
  (forall (n : safe_int) rest,
     env_HONEYPOT_TIMEOUT_MS env = Some (Number_toString n ++ rest) ->
     digits_prefix rest = EmptyString ->
     HONEYPOT_TIMEOUT_MS env = Int n) /\
  (forall c t,
     env_HONEYPOT_TIMEOUT_MS env = Some (String c t) ->
     skip_spaces (String c t) = String c t ->
     is_digit c = false ->
     c <> "-"%char -> c <> "+"%char ->
     HONEYPOT_TIMEOUT_MS env = NaN) /\
  HONEYPOT_URL env <> EmptyString /\
  HONEYPOT_BASE env <> EmptyString.
Proof.
  unfold HONEYPOT_TIMEOUT_MS, HONEYPOT_URL, HONEYPOT_BASE, env_or.
  repeat split.
  - intros [-> | ->]; reflexivity.
  - intros n rest -> Hr. unfold Number_toString.
    pose proof (decimal_truthy n rest) as Ht. cbn [truthy] in Ht.
    apply negb_true_iff in Ht. rewrite Ht.
    apply parse_decimal_Z_app; [apply int_exact | exact Hr].
  - intros c t -> Hsp Hdg Hm Hp. cbn [String.eqb].
    unfold parse_decimal. rewrite Hsp.
    assert (Hv : digits_value (String c t) = NaN).
    { unfold digits_value. cbn [digits_prefix]. now rewrite Hdg. }
    destruct c as [[] [] [] [] [] [] [] []]; try exact Hv;
      congruence.
  - destruct (env_HONEYPOT_URL env) as [s |]; [| discriminate].
    destruct (s =? EmptyString) eqn:E; [discriminate |].
    now apply String.eqb_neq.
  - destruct (env_HONEYPOT_BASE env) as [s |]; [| discriminate].
    destruct (s =? EmptyString) eqn:E; [discriminate |].
    now apply String.eqb_neq.
Qed.

Lemma deadline_configuration_witness :
  HONEYPOT_TIMEOUT_MS env_default = Int 2000 /\
  HONEYPOT_TIMEOUT_MS
    {| env_HONEYPOT_URL := None;
       env_HONEYPOT_TIMEOUT_MS := Some "500ms";
       env_HONEYPOT_BASE := None |} = Int 500 /\
  HONEYPOT_TIMEOUT_MS
    {| env_HONEYPOT_URL := None;
       env_HONEYPOT_TIMEOUT_MS := Some "fast";
       env_HONEYPOT_BASE := None |} = NaN.
Proof.
  split; [| split].
  - apply (proj1 (deadline_configuration env_default)). now left.
  - apply (proj1 (proj2 (deadline_configuration _))
             {| int_value := 500%Z; int_exact := eq_refl |} "ms");
      reflexivity.
  - apply (proj1 (proj2 (proj2 (deadline_configuration _))) "f"%char "ast");
      try reflexivity; discriminate.
Defined.
